(** * TaskWeaver sidecar (src/agents/taskweaver/server.py): a shallow embedding

    The FastAPI sidecar keeps one bounded deque of events per run
    ([RUN_QUEUES]), fills it from [/tw/run], its background task and
    [/tw/tool-result], drains it from the SSE generator of [/tw/events], and
    proxies [/tw/tool-call] to a downstream executor.

    Modelling choices:
    - JSON values as an inductive [json]; a number is [mant * 10^exp10];
      a string is the UTF-8 encoding of the Python [str].
    - A Python dict decoded from JSON is an association list whose last
      binding of a key wins (as [json.loads] does).
    - [RUN_QUEUES] (a [defaultdict] of [deque(maxlen=500)]) is a total
      function from hashable keys to lists; a key never written maps to the
      empty deque, which is what [defaultdict] creates on first access.
    - Handlers run in a state and exception monad over [heap]; the heap also
      records, as ghost state, every [enqueue] ([elog]) and the tasks spawned
      with [asyncio.create_task].
    - HTTP replies of collaborators (the reasoning backend, the tool executor)
      are inputs. *)

From Stdlib Require Import ZArith String Ascii Bool List.
From stdpp Require Import base list strings pretty.
Import ListNotations.

Open Scope Z_scope.
#[local] Set Warnings "-register-all".

(* ------------------------------------------------------------------ *)
(** ** JSON values and Python truthiness *)

Inductive json : Type :=
| JNull
| JBool (b : bool)
| JNum (mant : Z) (exp10 : Z)
| JStr (s : string)
| JArr (xs : list json)
| JObj (fields : list (string * json)).

(** [bool(v)] in Python for a value decoded from JSON. *)
Definition truthy (v : json) : bool :=
  match v with
  | JNull => false
  | JBool b => b
  | JNum m _ => negb (Z.eqb m 0)
  | JStr s => negb (String.eqb s "")
  | JArr [] => false
  | JArr _ => true
  | JObj [] => false
  | JObj _ => true
  end.

(** [a or b] *)
Definition py_or (a b : json) : json := if truthy a then a else b.

(** [d.get(k)] on a dict decoded from JSON: the last binding wins. *)
Fixpoint dict_get (d : list (string * json)) (k : string) : option json :=
  match d with
  | [] => None
  | (k', v) :: d' =>
      match dict_get d' k with
      | Some v' => Some v'
      | None => if String.eqb k k' then Some v else None
      end
  end.

(* ------------------------------------------------------------------ *)
(** ** Dict keys: hashable JSON values *)

(** Python identifies [True] with [1] and [1.0] with [1] as dict keys;
    numbers are normalised by stripping trailing decimal zeros. *)
Inductive key : Type :=
| KNone
| KStr (s : string)
| KNum (mant : Z) (exp10 : Z).

#[global] Instance key_eq_dec : EqDecision key.
Proof. solve_decision. Defined.

Fixpoint norm_num (fuel : nat) (m e : Z) : Z * Z :=
  match fuel with
  | O => (m, e)
  | S f =>
      if Z.eqb m 0 then (0, 0)
      else if Z.eqb (m mod 10) 0 then norm_num f (m / 10) (e + 1)
      else (m, e)
  end.

(** [hash(v)]: [None] for the unhashable list and dict. *)
Definition key_of (v : json) : option key :=
  match v with
  | JNull => Some KNone
  | JBool true => Some (KNum 1 0)
  | JBool false => Some (KNum 0 0)
  | JNum m e =>
      let '(m', e') := norm_num (S (Z.to_nat (Z.log2 (Z.abs m)))) m e in
      Some (KNum m' e')
  | JStr s => Some (KStr s)
  | JArr _ | JObj _ => None
  end.

(* ------------------------------------------------------------------ *)
(** ** Strings: [str.lower] and [k in t] *)

(** A Python [str] is held as its UTF-8 encoding (a lone surrogate, which
    [json.loads] accepts, as the three bytes of its code point).
    [str.lower] is CPython's [do_lower]: every code point is mapped by its
    full lowercase mapping, except U+03A3 GREEK CAPITAL LETTER SIGMA, which
    [handle_capital_sigma] maps to the final sigma U+03C2 when a cased code
    point precedes it and none follows it (skipping case-ignorable code
    points on both sides), and to U+03C3 otherwise. The tables are those of
    CPython 3.11 (Unicode 14.0): [_PyUnicode_ToLowerFull],
    [_PyUnicode_IsCaseIgnorable] and [_PyUnicode_IsCased]. *)

(** A decoded unit: a code point, or a byte that starts no well-formed
    sequence (the encoding of a [str] has none). *)
Inductive uchar : Type :=
| UCode (c : Z)
| UByte (b : ascii).

Definition byte_val (b : ascii) : Z := Z.of_nat (Ascii.nat_of_ascii b).

(** The payload of a continuation byte [10xxxxxx]. *)
Definition cont_bits (b : ascii) : option Z :=
  let n := byte_val b in
  if (128 <=? n) && (n <? 192) then Some (n - 128) else None.

Fixpoint utf8_decode (s : string) : list uchar :=
  match s with
  | EmptyString => []
  | String b s1 =>
      let n := byte_val b in
      if n <? 128 then UCode n :: utf8_decode s1
      else if (192 <=? n) && (n <? 224) then
        match s1 with
        | String b2 s2 =>
            match cont_bits b2 with
            | Some x2 => UCode ((n - 192) * 64 + x2) :: utf8_decode s2
            | None => UByte b :: utf8_decode s1
            end
        | EmptyString => UByte b :: utf8_decode s1
        end
      else if (224 <=? n) && (n <? 240) then
        match s1 with
        | String b2 (String b3 s3) =>
            match cont_bits b2, cont_bits b3 with
            | Some x2, Some x3 => UCode ((n - 224) * 4096 + x2 * 64 + x3) :: utf8_decode s3
            | _, _ => UByte b :: utf8_decode s1
            end
        | _ => UByte b :: utf8_decode s1
        end
      else if (240 <=? n) && (n <? 248) then
        match s1 with
        | String b2 (String b3 (String b4 s4)) =>
            match cont_bits b2, cont_bits b3, cont_bits b4 with
            | Some x2, Some x3, Some x4 =>
                UCode ((n - 240) * 262144 + x2 * 4096 + x3 * 64 + x4) :: utf8_decode s4
            | _, _, _ => UByte b :: utf8_decode s1
            end
        | _ => UByte b :: utf8_decode s1
        end
      else UByte b :: utf8_decode s1
  end.

Definition byte_of (n : Z) : ascii := Ascii.ascii_of_nat (Z.to_nat n).

Definition utf8_encode_char (u : uchar) : string :=
  match u with
  | UByte b => String b EmptyString
  | UCode c =>
      if c <? 128 then String (byte_of c) EmptyString
      else if c <? 2048 then
        String (byte_of (192 + c / 64)) (String (byte_of (128 + c mod 64)) EmptyString)
      else if c <? 65536 then
        String (byte_of (224 + c / 4096))
          (String (byte_of (128 + (c / 64) mod 64)) (String (byte_of (128 + c mod 64)) EmptyString))
      else
        String (byte_of (240 + c / 262144))
          (String (byte_of (128 + (c / 4096) mod 64))
             (String (byte_of (128 + (c / 64) mod 64)) (String (byte_of (128 + c mod 64)) EmptyString)))
  end.

Fixpoint utf8_encode (l : list uchar) : string :=
  match l with
  | [] => EmptyString
  | u :: l' => String.append (utf8_encode_char u) (utf8_encode l')
  end.

(** Lowercase mapping by runs [(first, last, stride, delta)]: a code point
    [c] of [first..last] with [(c - first) mod stride = 0] maps to
    [c + delta]; the only mapping to more than one code point is U+0130's. *)
Definition lower_runs : list (Z * Z * Z * Z) := [
  (65, 90, 1, 32); (192, 214, 1, 32); (216, 222, 1, 32); (256, 302, 2, 1); (306, 310, 2, 1);
  (313, 327, 2, 1); (330, 374, 2, 1); (376, 376, 1, -121); (377, 381, 2, 1); (385, 385, 1, 210);
  (386, 388, 2, 1); (390, 390, 1, 206); (391, 391, 1, 1); (393, 394, 1, 205); (395, 395, 1, 1);
  (398, 398, 1, 79); (399, 399, 1, 202); (400, 400, 1, 203); (401, 401, 1, 1); (403, 403, 1, 205);
  (404, 404, 1, 207); (406, 406, 1, 211); (407, 407, 1, 209); (408, 408, 1, 1); (412, 412, 1, 211);
  (413, 413, 1, 213); (415, 415, 1, 214); (416, 420, 2, 1); (422, 422, 1, 218); (423, 423, 1, 1);
  (425, 425, 1, 218); (428, 428, 1, 1); (430, 430, 1, 218); (431, 431, 1, 1); (433, 434, 1, 217);
  (435, 437, 2, 1); (439, 439, 1, 219); (440, 440, 1, 1); (444, 444, 1, 1); (452, 452, 1, 2);
  (453, 453, 1, 1); (455, 455, 1, 2); (456, 456, 1, 1); (458, 458, 1, 2); (459, 475, 2, 1);
  (478, 494, 2, 1); (497, 497, 1, 2); (498, 500, 2, 1); (502, 502, 1, -97); (503, 503, 1, -56);
  (504, 542, 2, 1); (544, 544, 1, -130); (546, 562, 2, 1); (570, 570, 1, 10795); (571, 571, 1, 1);
  (573, 573, 1, -163); (574, 574, 1, 10792); (577, 577, 1, 1); (579, 579, 1, -195); (580, 580, 1, 69);
  (581, 581, 1, 71); (582, 590, 2, 1); (880, 882, 2, 1); (886, 886, 1, 1); (895, 895, 1, 116);
  (902, 902, 1, 38); (904, 906, 1, 37); (908, 908, 1, 64); (910, 911, 1, 63); (913, 929, 1, 32);
  (931, 939, 1, 32); (975, 975, 1, 8); (984, 1006, 2, 1); (1012, 1012, 1, -60); (1015, 1015, 1, 1);
  (1017, 1017, 1, -7); (1018, 1018, 1, 1); (1021, 1023, 1, -130); (1024, 1039, 1, 80); (1040, 1071, 1, 32);
  (1120, 1152, 2, 1); (1162, 1214, 2, 1); (1216, 1216, 1, 15); (1217, 1229, 2, 1); (1232, 1326, 2, 1);
  (1329, 1366, 1, 48); (4256, 4293, 1, 7264); (4295, 4295, 1, 7264); (4301, 4301, 1, 7264); (5024, 5103, 1, 38864);
  (5104, 5109, 1, 8); (7312, 7354, 1, -3008); (7357, 7359, 1, -3008); (7680, 7828, 2, 1); (7838, 7838, 1, -7615);
  (7840, 7934, 2, 1); (7944, 7951, 1, -8); (7960, 7965, 1, -8); (7976, 7983, 1, -8); (7992, 7999, 1, -8);
  (8008, 8013, 1, -8); (8025, 8031, 2, -8); (8040, 8047, 1, -8); (8072, 8079, 1, -8); (8088, 8095, 1, -8);
  (8104, 8111, 1, -8); (8120, 8121, 1, -8); (8122, 8123, 1, -74); (8124, 8124, 1, -9); (8136, 8139, 1, -86);
  (8140, 8140, 1, -9); (8152, 8153, 1, -8); (8154, 8155, 1, -100); (8168, 8169, 1, -8); (8170, 8171, 1, -112);
  (8172, 8172, 1, -7); (8184, 8185, 1, -128); (8186, 8187, 1, -126); (8188, 8188, 1, -9); (8486, 8486, 1, -7517);
  (8490, 8490, 1, -8383); (8491, 8491, 1, -8262); (8498, 8498, 1, 28); (8544, 8559, 1, 16); (8579, 8579, 1, 1);
  (9398, 9423, 1, 26); (11264, 11311, 1, 48); (11360, 11360, 1, 1); (11362, 11362, 1, -10743); (11363, 11363, 1, -3814);
  (11364, 11364, 1, -10727); (11367, 11371, 2, 1); (11373, 11373, 1, -10780); (11374, 11374, 1, -10749); (11375, 11375, 1, -10783);
  (11376, 11376, 1, -10782); (11378, 11378, 1, 1); (11381, 11381, 1, 1); (11390, 11391, 1, -10815); (11392, 11490, 2, 1);
  (11499, 11501, 2, 1); (11506, 11506, 1, 1); (42560, 42604, 2, 1); (42624, 42650, 2, 1); (42786, 42798, 2, 1);
  (42802, 42862, 2, 1); (42873, 42875, 2, 1); (42877, 42877, 1, -35332); (42878, 42886, 2, 1); (42891, 42891, 1, 1);
  (42893, 42893, 1, -42280); (42896, 42898, 2, 1); (42902, 42920, 2, 1); (42922, 42922, 1, -42308); (42923, 42923, 1, -42319);
  (42924, 42924, 1, -42315); (42925, 42925, 1, -42305); (42926, 42926, 1, -42308); (42928, 42928, 1, -42258); (42929, 42929, 1, -42282);
  (42930, 42930, 1, -42261); (42931, 42931, 1, 928); (42932, 42946, 2, 1); (42948, 42948, 1, -48); (42949, 42949, 1, -42307);
  (42950, 42950, 1, -35384); (42951, 42953, 2, 1); (42960, 42960, 1, 1); (42966, 42968, 2, 1); (42997, 42997, 1, 1);
  (65313, 65338, 1, 32); (66560, 66599, 1, 40); (66736, 66771, 1, 40); (66928, 66938, 1, 39); (66940, 66954, 1, 39);
  (66956, 66962, 1, 39); (66964, 66965, 1, 39); (68736, 68786, 1, 64); (71840, 71871, 1, 32); (93760, 93791, 1, 32);
  (125184, 125217, 1, 34)].

Definition case_ignorable_ranges : list (Z * Z) := [
  (39, 39); (46, 46); (58, 58); (94, 94); (96, 96); (168, 168); (173, 173);
  (175, 175); (180, 180); (183, 184); (688, 879); (884, 885); (890, 890); (900, 901);
  (903, 903); (1155, 1161); (1369, 1369); (1375, 1375); (1425, 1469); (1471, 1471); (1473, 1474);
  (1476, 1477); (1479, 1479); (1524, 1524); (1536, 1541); (1552, 1562); (1564, 1564); (1600, 1600);
  (1611, 1631); (1648, 1648); (1750, 1757); (1759, 1768); (1770, 1773); (1807, 1807); (1809, 1809);
  (1840, 1866); (1958, 1968); (2027, 2037); (2042, 2042); (2045, 2045); (2070, 2093); (2137, 2139);
  (2184, 2184); (2192, 2193); (2200, 2207); (2249, 2306); (2362, 2362); (2364, 2364); (2369, 2376);
  (2381, 2381); (2385, 2391); (2402, 2403); (2417, 2417); (2433, 2433); (2492, 2492); (2497, 2500);
  (2509, 2509); (2530, 2531); (2558, 2558); (2561, 2562); (2620, 2620); (2625, 2626); (2631, 2632);
  (2635, 2637); (2641, 2641); (2672, 2673); (2677, 2677); (2689, 2690); (2748, 2748); (2753, 2757);
  (2759, 2760); (2765, 2765); (2786, 2787); (2810, 2815); (2817, 2817); (2876, 2876); (2879, 2879);
  (2881, 2884); (2893, 2893); (2901, 2902); (2914, 2915); (2946, 2946); (3008, 3008); (3021, 3021);
  (3072, 3072); (3076, 3076); (3132, 3132); (3134, 3136); (3142, 3144); (3146, 3149); (3157, 3158);
  (3170, 3171); (3201, 3201); (3260, 3260); (3263, 3263); (3270, 3270); (3276, 3277); (3298, 3299);
  (3328, 3329); (3387, 3388); (3393, 3396); (3405, 3405); (3426, 3427); (3457, 3457); (3530, 3530);
  (3538, 3540); (3542, 3542); (3633, 3633); (3636, 3642); (3654, 3662); (3761, 3761); (3764, 3772);
  (3782, 3782); (3784, 3789); (3864, 3865); (3893, 3893); (3895, 3895); (3897, 3897); (3953, 3966);
  (3968, 3972); (3974, 3975); (3981, 3991); (3993, 4028); (4038, 4038); (4141, 4144); (4146, 4151);
  (4153, 4154); (4157, 4158); (4184, 4185); (4190, 4192); (4209, 4212); (4226, 4226); (4229, 4230);
  (4237, 4237); (4253, 4253); (4348, 4348); (4957, 4959); (5906, 5908); (5938, 5939); (5970, 5971);
  (6002, 6003); (6068, 6069); (6071, 6077); (6086, 6086); (6089, 6099); (6103, 6103); (6109, 6109);
  (6155, 6159); (6211, 6211); (6277, 6278); (6313, 6313); (6432, 6434); (6439, 6440); (6450, 6450);
  (6457, 6459); (6679, 6680); (6683, 6683); (6742, 6742); (6744, 6750); (6752, 6752); (6754, 6754);
  (6757, 6764); (6771, 6780); (6783, 6783); (6823, 6823); (6832, 6862); (6912, 6915); (6964, 6964);
  (6966, 6970); (6972, 6972); (6978, 6978); (7019, 7027); (7040, 7041); (7074, 7077); (7080, 7081);
  (7083, 7085); (7142, 7142); (7144, 7145); (7149, 7149); (7151, 7153); (7212, 7219); (7222, 7223);
  (7288, 7293); (7376, 7378); (7380, 7392); (7394, 7400); (7405, 7405); (7412, 7412); (7416, 7417);
  (7468, 7530); (7544, 7544); (7579, 7679); (8125, 8125); (8127, 8129); (8141, 8143); (8157, 8159);
  (8173, 8175); (8189, 8190); (8203, 8207); (8216, 8217); (8228, 8228); (8231, 8231); (8234, 8238);
  (8288, 8292); (8294, 8303); (8305, 8305); (8319, 8319); (8336, 8348); (8400, 8432); (11388, 11389);
  (11503, 11505); (11631, 11631); (11647, 11647); (11744, 11775); (11823, 11823); (12293, 12293); (12330, 12333);
  (12337, 12341); (12347, 12347); (12441, 12446); (12540, 12542); (40981, 40981); (42232, 42237); (42508, 42508);
  (42607, 42610); (42612, 42621); (42623, 42623); (42652, 42655); (42736, 42737); (42752, 42785); (42864, 42864);
  (42888, 42890); (42994, 42996); (43000, 43001); (43010, 43010); (43014, 43014); (43019, 43019); (43045, 43046);
  (43052, 43052); (43204, 43205); (43232, 43249); (43263, 43263); (43302, 43309); (43335, 43345); (43392, 43394);
  (43443, 43443); (43446, 43449); (43452, 43453); (43471, 43471); (43493, 43494); (43561, 43566); (43569, 43570);
  (43573, 43574); (43587, 43587); (43596, 43596); (43632, 43632); (43644, 43644); (43696, 43696); (43698, 43700);
  (43703, 43704); (43710, 43711); (43713, 43713); (43741, 43741); (43756, 43757); (43763, 43764); (43766, 43766);
  (43867, 43871); (43881, 43883); (44005, 44005); (44008, 44008); (44013, 44013); (64286, 64286); (64434, 64450);
  (65024, 65039); (65043, 65043); (65056, 65071); (65106, 65106); (65109, 65109); (65279, 65279); (65287, 65287);
  (65294, 65294); (65306, 65306); (65342, 65342); (65344, 65344); (65392, 65392); (65438, 65439); (65507, 65507);
  (65529, 65531); (66045, 66045); (66272, 66272); (66422, 66426); (67456, 67461); (67463, 67504); (67506, 67514);
  (68097, 68099); (68101, 68102); (68108, 68111); (68152, 68154); (68159, 68159); (68325, 68326); (68900, 68903);
  (69291, 69292); (69446, 69456); (69506, 69509); (69633, 69633); (69688, 69702); (69744, 69744); (69747, 69748);
  (69759, 69761); (69811, 69814); (69817, 69818); (69821, 69821); (69826, 69826); (69837, 69837); (69888, 69890);
  (69927, 69931); (69933, 69940); (70003, 70003); (70016, 70017); (70070, 70078); (70089, 70092); (70095, 70095);
  (70191, 70193); (70196, 70196); (70198, 70199); (70206, 70206); (70367, 70367); (70371, 70378); (70400, 70401);
  (70459, 70460); (70464, 70464); (70502, 70508); (70512, 70516); (70712, 70719); (70722, 70724); (70726, 70726);
  (70750, 70750); (70835, 70840); (70842, 70842); (70847, 70848); (70850, 70851); (71090, 71093); (71100, 71101);
  (71103, 71104); (71132, 71133); (71219, 71226); (71229, 71229); (71231, 71232); (71339, 71339); (71341, 71341);
  (71344, 71349); (71351, 71351); (71453, 71455); (71458, 71461); (71463, 71467); (71727, 71735); (71737, 71738);
  (71995, 71996); (71998, 71998); (72003, 72003); (72148, 72151); (72154, 72155); (72160, 72160); (72193, 72202);
  (72243, 72248); (72251, 72254); (72263, 72263); (72273, 72278); (72281, 72283); (72330, 72342); (72344, 72345);
  (72752, 72758); (72760, 72765); (72767, 72767); (72850, 72871); (72874, 72880); (72882, 72883); (72885, 72886);
  (73009, 73014); (73018, 73018); (73020, 73021); (73023, 73029); (73031, 73031); (73104, 73105); (73109, 73109);
  (73111, 73111); (73459, 73460); (78896, 78904); (92912, 92916); (92976, 92982); (92992, 92995); (94031, 94031);
  (94095, 94111); (94176, 94177); (94179, 94180); (110576, 110579); (110581, 110587); (110589, 110590); (113821, 113822);
  (113824, 113827); (118528, 118573); (118576, 118598); (119143, 119145); (119155, 119170); (119173, 119179); (119210, 119213);
  (119362, 119364); (121344, 121398); (121403, 121452); (121461, 121461); (121476, 121476); (121499, 121503); (121505, 121519);
  (122880, 122886); (122888, 122904); (122907, 122913); (122915, 122916); (122918, 122922); (123184, 123197); (123566, 123566);
  (123628, 123631); (125136, 125142); (125252, 125259); (127995, 127999); (917505, 917505); (917536, 917631); (917760, 917999)].

Definition cased_ranges : list (Z * Z) := [
  (65, 90); (97, 122); (170, 170); (181, 181); (186, 186); (192, 214); (216, 246);
  (248, 442); (444, 447); (452, 659); (661, 696); (704, 705); (736, 740); (837, 837);
  (880, 883); (886, 887); (890, 893); (895, 895); (902, 902); (904, 906); (908, 908);
  (910, 929); (931, 1013); (1015, 1153); (1162, 1327); (1329, 1366); (1376, 1416); (4256, 4293);
  (4295, 4295); (4301, 4301); (4304, 4346); (4349, 4351); (5024, 5109); (5112, 5117); (7296, 7304);
  (7312, 7354); (7357, 7359); (7424, 7615); (7680, 7957); (7960, 7965); (7968, 8005); (8008, 8013);
  (8016, 8023); (8025, 8025); (8027, 8027); (8029, 8029); (8031, 8061); (8064, 8116); (8118, 8124);
  (8126, 8126); (8130, 8132); (8134, 8140); (8144, 8147); (8150, 8155); (8160, 8172); (8178, 8180);
  (8182, 8188); (8305, 8305); (8319, 8319); (8336, 8348); (8450, 8450); (8455, 8455); (8458, 8467);
  (8469, 8469); (8473, 8477); (8484, 8484); (8486, 8486); (8488, 8488); (8490, 8493); (8495, 8500);
  (8505, 8505); (8508, 8511); (8517, 8521); (8526, 8526); (8544, 8575); (8579, 8580); (9398, 9449);
  (11264, 11492); (11499, 11502); (11506, 11507); (11520, 11557); (11559, 11559); (11565, 11565); (42560, 42605);
  (42624, 42653); (42786, 42887); (42891, 42894); (42896, 42954); (42960, 42961); (42963, 42963); (42965, 42969);
  (42997, 42998); (43000, 43002); (43824, 43866); (43868, 43880); (43888, 43967); (64256, 64262); (64275, 64279);
  (65313, 65338); (65345, 65370); (66560, 66639); (66736, 66771); (66776, 66811); (66928, 66938); (66940, 66954);
  (66956, 66962); (66964, 66965); (66967, 66977); (66979, 66993); (66995, 67001); (67003, 67004); (67456, 67456);
  (67459, 67461); (67463, 67504); (67506, 67514); (68736, 68786); (68800, 68850); (71840, 71903); (93760, 93823);
  (119808, 119892); (119894, 119964); (119966, 119967); (119970, 119970); (119973, 119974); (119977, 119980); (119982, 119993);
  (119995, 119995); (119997, 120003); (120005, 120069); (120071, 120074); (120077, 120084); (120086, 120092); (120094, 120121);
  (120123, 120126); (120128, 120132); (120134, 120134); (120138, 120144); (120146, 120485); (120488, 120512); (120514, 120538);
  (120540, 120570); (120572, 120596); (120598, 120628); (120630, 120654); (120656, 120686); (120688, 120712); (120714, 120744);
  (120746, 120770); (120772, 120779); (122624, 122633); (122635, 122654); (125184, 125251); (127280, 127305); (127312, 127337);
  (127344, 127369)].

Definition in_ranges (rs : list (Z * Z)) (c : Z) : bool :=
  existsb (fun '(a, b) => (a <=? c) && (c <=? b)) rs.

(** [_PyUnicode_ToLowerFull] *)
Definition lower_full (c : Z) : list Z :=
  if Z.eqb c 304 then [105; 775]
  else match List.find (fun '(a, b, st, _) => (a <=? c) && (c <=? b) && Z.eqb ((c - a) mod st) 0)
                       lower_runs with
       | Some (_, _, _, d) => [c + d]
       | None => [c]
       end.

Definition case_ignorable (u : uchar) : bool :=
  match u with UCode c => in_ranges case_ignorable_ranges c | UByte _ => false end.

Definition cased (u : uchar) : bool :=
  match u with UCode c => in_ranges cased_ranges c | UByte _ => false end.

(** The first unit of [l] that is not case-ignorable. *)
Fixpoint first_not_ignorable (l : list uchar) : option uchar :=
  match l with
  | [] => None
  | u :: l' => if case_ignorable u then first_not_ignorable l' else Some u
  end.

(** [handle_capital_sigma]: [before_rev] is what precedes the sigma, nearest
    first; [after] what follows it. *)
Definition final_sigma (before_rev after : list uchar) : bool :=
  match first_not_ignorable before_rev with Some u => cased u | None => false end
  && match first_not_ignorable after with Some u => negb (cased u) | None => true end.

Fixpoint lower_units (before_rev l : list uchar) : list uchar :=
  match l with
  | [] => []
  | u :: l' =>
      match u with
      | UCode c =>
          if Z.eqb c 931 then UCode (if final_sigma before_rev l' then 962 else 963) :: []
          else map UCode (lower_full c)
      | UByte b => [UByte b]
      end ++ lower_units (u :: before_rev) l'
  end.

(** [s.lower()] *)
Definition str_lower (s : string) : string :=
  utf8_encode (lower_units [] (utf8_decode s)).

Fixpoint str_prefixb (p s : string) : bool :=
  match p, s with
  | EmptyString, _ => true
  | String c p', String d s' => Ascii.eqb c d && str_prefixb p' s'
  | String _ _, EmptyString => false
  end.

(** [k in t], on the UTF-8 encodings: in a well-formed encoding a byte
    match is a code-point match. *)
Fixpoint str_contains (t k : string) : bool :=
  str_prefixb k t ||
  match t with
  | EmptyString => false
  | String _ t' => str_contains t' k
  end.

(* ------------------------------------------------------------------ *)
(** ** Process state and the handler monad *)

(** Where the [background_loop] coroutine is suspended. *)
Inductive task_pc : Type :=
| TStart      (* created by [asyncio.create_task], not yet run *)
| TSlept      (* suspended in [await asyncio.sleep(0.5)] *)
| TFinished.

Record task : Type := {
  t_run_id : json;
  t_tool : string;
  t_pc : task_pc
}.

Record heap : Type := {
  queues : key -> list json;        (* RUN_QUEUES *)
  elog : list (key * json);         (* ghost: every enqueue, in order *)
  tasks : list task                 (* tasks spawned by create_task *)
}.

Definition empty_heap : heap :=
  {| queues := fun _ => []; elog := []; tasks := [] |}.

Inductive exn : Type :=
| HTTPException (status_code : Z) (detail : string)
| PyError (cls : string) (msg : string).

Definition exn_str (e : exn) : string :=
  match e with
  | HTTPException _ d => d
  | PyError _ m => m
  end.

Definition M (A : Type) : Type := heap -> (A + exn) * heap.

#[global] Instance M_ret : MRet M := fun A a h => (inl a, h).
#[global] Instance M_bind : MBind M := fun A B k c h =>
  match c h with
  | (inl a, h') => k a h'
  | (inr e, h') => (inr e, h')
  end.

Definition raise {A} (e : exn) : M A := fun h => (inr e, h).

(** [try: c except Exception as e: handler(e)] *)
Definition try_except {A} (c : M A) (handler : exn -> M A) : M A := fun h =>
  match c h with
  | (inr e, h') => handler e h'
  | r => r
  end.

(* ------------------------------------------------------------------ *)
(** ** Event queue store: [RUN_QUEUES] and [enqueue] *)

Definition RUN_QUEUE_MAXLEN : nat := 500.

(** [deque.append] on a deque with [maxlen]: append on the right, then pop
    the leftmost item once if the deque became longer than [maxlen]. *)
Definition deque_append (maxlen : nat) (q : list json) (x : json) : list json :=
  let q' := q ++ [x] in
  if Nat.ltb maxlen (length q') then tail q' else q'.

(** [deque.popleft] on a non-empty deque. *)
Definition popleft (q : list json) : option (json * list json) :=
  match q with
  | [] => None
  | x :: q' => Some (x, q')
  end.

Definition set_queue (h : heap) (k : key) (q : list json) : heap :=
  {| queues := fun k' => if decide (k' = k) then q else queues h k';
     elog := elog h;
     tasks := tasks h |}.

(** [async def enqueue(run_id, event): RUN_QUEUES[run_id].append(event)] *)
Definition enqueue (run_id : json) (event : json) : M unit := fun h =>
  match key_of run_id with
  | None => (inr (PyError "TypeError" "unhashable type"), h)
  | Some k =>
      (inl (),
       {| queues := fun k' =>
            if decide (k' = k) then deque_append RUN_QUEUE_MAXLEN (queues h k) event
            else queues h k';
          elog := elog h ++ [(k, event)];
          tasks := tasks h |})
  end.

(** [asyncio.create_task(background_loop())] *)
Definition create_task (t : task) : M unit := fun h =>
  (inl (), {| queues := queues h; elog := elog h; tasks := tasks h ++ [t] |}).

(* ------------------------------------------------------------------ *)
(** ** Requests and responses *)

Record config : Type := {
  TW_SHARED_TOKEN : string   (* os.getenv("TW_SHARED_TOKEN", "replace-me") *)
}.

Definition default_config : config := {| TW_SHARED_TOKEN := "replace-me" |}.

Inductive resp_body : Type :=
| BJson (j : json)
| BRaw (s : string).

Record response : Type := {
  status : Z;
  rbody : resp_body
}.

(** A Python value handed to [JSONResponse]: a JSON-like value or [bytes]. *)
Inductive pyval : Type :=
| PyJson (j : json)
| PyBytes (b : string).

(** Starlette's [JSONResponse(content, status_code)]: its constructor
    renders the body with [json.dumps], which raises [TypeError] on
    [bytes]. *)
Definition JSONResponse (content : pyval) (status_code : Z) : M response :=
  match content with
  | PyJson j => mret {| status := status_code; rbody := BJson j |}
  | PyBytes _ => raise (PyError "TypeError" "Object of type bytes is not JSON serializable")
  end.

(** An outbound [httpx] POST: a reply (status, raw body, and [resp.json()]
    which is [None] when the body is not JSON), or an exception raised by
    the client (network error, timeout). *)
Inductive http_reply : Type :=
| HttpResp (status_code : Z) (raw : string) (parsed : option json)
| HttpRaise (msg : string).

(** FastAPI's treatment of a handler's outcome: an [HTTPException] becomes
    its status with [{"detail": ...}], any other exception a 500. *)
Definition serve (c : M response) (h : heap) : response * heap :=
  match c h with
  | (inl r, h') => (r, h')
  | (inr (HTTPException st d), h') =>
      ({| status := st; rbody := BJson (JObj [("detail", JStr d)]) |}, h')
  | (inr (PyError _ _), h') =>
      ({| status := 500; rbody := BRaw "Internal Server Error" |}, h')
  end.

(** [body.get(k, default)] *)
Definition py_get_default (o : json) (k : string) (dflt : json) : M json :=
  match o with
  | JObj d => mret (match dict_get d k with Some v => v | None => dflt end)
  | _ => raise (PyError "AttributeError" "object has no attribute 'get'")
  end.

Definition py_get (o : json) (k : string) : M json := py_get_default o k JNull.

(** [auth_or_403(token)]; the header is [None] when absent. *)
Definition auth_or_403 (cfg : config) (token : option string) : M unit :=
  if decide (token = Some (TW_SHARED_TOKEN cfg)) then mret ()
  else raise (HTTPException 403 "Forbidden: bad token").

(* ------------------------------------------------------------------ *)
(** ** Event payloads built by the server *)

Definition ev_assistant (content : json) : json :=
  JObj [("type", JStr "assistant"); ("content", content)].

Definition ev_done : json :=
  JObj [("type", JStr "done"); ("status", JStr "success")].

Definition ev_plan (summary : string) (tool : string) : json :=
  JObj [("type", JStr "plan"); ("summary", JStr summary); ("steps", JArr [JStr tool])].

Definition ev_act_start (tool : string) (args : json) : json :=
  JObj [("type", JStr "act"); ("status", JStr "start"); ("tool", JStr tool); ("args", args)].

Definition ev_act_result (tool : json) (result : json) : json :=
  JObj [("type", JStr "act"); ("status", JStr "result"); ("tool", tool); ("result", result)].

Definition ev_error (hint : string) : json :=
  JObj [("type", JStr "error"); ("code", JStr "E_RUNTIME");
        ("title", JStr "Runtime error"); ("hint", JStr hint)].

Definition ok_true : json := JObj [("ok", JBool true)].

(* ------------------------------------------------------------------ *)
(** ** [/tw/run] *)

Definition actionable_keywords : list string :=
  ["create"; "build"; "add"; "draw"; "make"; "generate"; "insert";
   "room"; "wall"; "door"; "window"; "column"; "beam"; "roof"; "stair"; "slab";
   "render"; "token"; "openings"; "partition"].

(** [any(k in t for k in keywords)] *)
Definition any_keyword (t : string) : bool :=
  existsb (fun k => str_contains t k) actionable_keywords.

(** The nested helper [is_actionable(text)]: [text.lower()] raises
    [AttributeError] on a truthy value that is not a string. *)
Definition is_actionable (text : json) : M bool :=
  if negb (truthy text) then mret false
  else match text with
       | JStr s => mret (any_keyword (str_lower s))
       | _ => raise (PyError "AttributeError" "object has no attribute 'lower'")
       end.

Definition advisory_payload (goal context : json) : json :=
  JObj [("message", goal); ("model", JStr "gpt-4"); ("mode", JStr "agent");
        ("context", context)].

Definition default_reply : string := "I understand. I'll plan the steps next.".
Definition fallback_reply : string := "Got it. I'll help with that.".

(** [resp.json()] *)
Definition resp_json (parsed : option json) : M json :=
  match parsed with
  | Some j => mret j
  | None => raise (PyError "JSONDecodeError" "Expecting value")
  end.

(** [(content or "").strip()] (and [len(content)]): [content] is always
    truthy here, and only a [str] has these methods. *)
Definition str_method (content : json) : M string :=
  match content with
  | JStr s => mret s
  | _ => raise (PyError "AttributeError" "object has no attribute 'strip'")
  end.

(** Step 1 of [tw_run]: the [try]/[except] around the backend call. *)
Definition advisory (backend : json -> http_reply) (run_id goal context : json) : M unit :=
  try_except
    (match backend (advisory_payload goal context) with
     | HttpRaise msg => raise (PyError "httpx.HTTPError" msg)
     | HttpResp st _ parsed =>
         if Z.eqb st 200 then
           data ← resp_json parsed;
           r ← py_get data "response";
           content ← (if truthy r then mret r
                      else m ← py_get data "message";
                           mret (py_or m (JStr default_reply)));
           _ ← str_method content;
           enqueue run_id (ev_assistant content)
         else
           (* print(f"[TW] LLM-first call failed: HTTP {resp.status_code}") *)
           mret ()
     end)
    (fun _ => enqueue run_id (ev_assistant (JStr fallback_reply))).

Definition chosen_tool : string := "geometry.createRoom".

(** [f"Plan for: {goal}"]; [goal] is a [str] whenever this is reached
    ([is_actionable] raised otherwise). *)
Definition plan_summary (goal : json) : string :=
  match goal with
  | JStr s => "Plan for: " ++ s
  | _ => "Plan for: "
  end.

Definition json_ok (j : json) : M response := JSONResponse (PyJson j) 200.

Definition tw_run (cfg : config) (backend : json -> http_reply)
    (x_tw_token : option string) (body : json) : M response :=
  auth_or_403 cfg x_tw_token;;
  run_id ← py_get body "runId";
  goal ← py_get body "goal";
  context ← py_get_default body "context" (JObj []);
  model ← py_get body "model";
  max_steps ← py_get_default body "maxSteps" (JNum 12 0);
  if negb (truthy run_id) || negb (truthy goal) then
    raise (HTTPException 400 "runId and goal required")
  else
    advisory backend run_id goal context;;
    act ← is_actionable goal;
    if negb act then
      enqueue run_id ev_done;;
      json_ok (JObj [("runId", run_id)])
    else
      enqueue run_id (ev_plan (plan_summary goal) chosen_tool);;
      create_task {| t_run_id := run_id; t_tool := chosen_tool; t_pc := TStart |};;
      json_ok (JObj [("runId", run_id)]).

(** The nested coroutine [background_loop], one resumption at a time. *)
Definition act_args : json :=
  JObj [("width", JNum 4 0); ("depth", JNum 5 0); ("height", JNum 27 (-1))].

Definition followup_reply : string :=
  "First step completed. Would you like me to partition into two bedrooms and add doors/windows?".

Definition background_on_error (t : task) (e : exn) : M task_pc :=
  enqueue (t_run_id t) (ev_error (exn_str e));; mret TFinished.

Definition background_step (t : task) : M task_pc :=
  match t_pc t with
  | TStart =>
      try_except
        (enqueue (t_run_id t) (ev_act_start (t_tool t) act_args);;
         (* await asyncio.sleep(0.5) *)
         mret TSlept)
        (background_on_error t)
  | TSlept =>
      try_except
        (enqueue (t_run_id t) (ev_assistant (JStr followup_reply));;
         enqueue (t_run_id t) ev_done;;
         mret TFinished)
        (background_on_error t)
  | TFinished => mret TFinished
  end.

(* ------------------------------------------------------------------ *)
(** ** [/tw/tool-call] and [/tw/tool-result] *)

Definition tw_tool_call (cfg : config) (downstream : json -> json -> http_reply)
    (x_tw_token : option string) (body : json) : M response :=
  auth_or_403 cfg x_tw_token;;
  name ← py_get body "name";
  args ← py_get_default body "args" (JObj []);
  if negb (truthy name) then raise (HTTPException 400 "name required")
  else match downstream name args with
       | HttpRaise msg => raise (PyError "httpx.HTTPError" msg)
       | HttpResp st raw _ =>
           (* JSONResponse(await resp.aread(), status_code=resp.status_code) *)
           JSONResponse (PyBytes raw) st
       end.

Definition tw_tool_result (cfg : config) (x_tw_token : option string) (body : json)
    : M response :=
  auth_or_403 cfg x_tw_token;;
  run_id ← py_get body "runId";
  tool ← py_get body "tool";
  result ← py_get body "result";
  if negb (truthy run_id) || negb (truthy tool) then
    raise (HTTPException 400 "runId and tool required")
  else
    enqueue run_id (ev_act_result tool (py_or result ok_true));;
    json_ok (JObj [("ok", JBool true)]).

(* ------------------------------------------------------------------ *)
(** ** [/tw/events/{run_id}]: the SSE generator *)

(** Where [event_generator] is suspended. *)
Inductive gen_pc : Type :=
| GInit            (* created, body not entered yet *)
| GAfterHeartbeat  (* at [yield {"event":"heartbeat", ...}] *)
| GAfterEvent      (* at the [yield] inside [while queue:] *)
| GSleeping        (* at [await asyncio.sleep(0.2)] *)
| GClosed.         (* left the loop after a disconnect *)

Record subscriber : Type := {
  s_run_id : string;   (* the path parameter *)
  s_pc : gen_pc
}.

Definition sub_key (sub : subscriber) : key := KStr (s_run_id sub).

(** An item yielded to [EventSourceResponse]. *)
Inductive item : Type :=
| Heartbeat                           (* {"event":"heartbeat", "data":"ok"} *)
| SseEvent (tag : json) (ev : json).  (* {"event": type, "data": json.dumps(event)} *)

(** [event.get("type", "message")]; every enqueued event is a dict. *)
Definition event_tag (ev : json) : json :=
  match ev with
  | JObj d => match dict_get d "type" with Some v => v | None => JStr "message" end
  | _ => JStr "message"
  end.

(** The body of [while queue: event = queue.popleft(); yield ...], up to
    its next suspension: a [yield] of the popped event, or the
    [asyncio.sleep(0.2)] once the deque is empty. *)
Definition drain_one (k : key) (h : heap) : option item * gen_pc * heap :=
  match popleft (queues h k) with
  | Some (ev, q') => (Some (SseEvent (event_tag ev) ev), GAfterEvent, set_queue h k q')
  | None => (None, GSleeping, h)
  end.

(** One resumption of [event_generator]; [disconnected] is what
    [await request.is_disconnected()] returns if that check is reached. *)
Definition gen_resume (sub : subscriber) (disconnected : bool) (h : heap)
    : option item * gen_pc * heap :=
  match s_pc sub with
  | GInit => (Some Heartbeat, GAfterHeartbeat, h)
  | GAfterHeartbeat | GSleeping =>
      if disconnected then (None, GClosed, h) else drain_one (sub_key sub) h
  | GAfterEvent => drain_one (sub_key sub) h
  | GClosed => (None, GClosed, h)
  end.

(* ------------------------------------------------------------------ *)
(** ** The process: interleaved requests, tasks and subscribers *)

Record world : Type := {
  wheap : heap;
  subs : list subscriber;                 (* open SSE subscriptions *)
  out : list (nat * key * item)           (* items sent: subscriber, run, item *)
}.

Definition init_world : world := {| wheap := empty_heap; subs := []; out := [] |}.

(** One scheduling step of the event loop. A handler runs from the point
    its collaborator's reply is in to its return without suspension (its
    [enqueue] calls do not suspend); a task or a generator runs from one
    suspension point to the next. *)
Inductive action : Type :=
| ARun (x_tw_token : option string) (body : json) (reply : http_reply)
| AToolCall (x_tw_token : option string) (body : json) (reply : http_reply)
| AToolResult (x_tw_token : option string) (body : json)
| ATask (i : nat)
| ASubscribe (x_tw_token : option string) (run_id : string)
| AResume (s : nat) (disconnected : bool).

Definition with_heap (w : world) (h : heap) : world :=
  {| wheap := h; subs := subs w; out := out w |}.

Definition set_task_pc (h : heap) (i : nat) (t : task) (pc : task_pc) : heap :=
  {| queues := queues h; elog := elog h;
     tasks := <[i := {| t_run_id := t_run_id t; t_tool := t_tool t; t_pc := pc |}]> (tasks h) |}.

Definition world_step (cfg : config) (w : world) (a : action) : world :=
  match a with
  | ARun tok body reply =>
      with_heap w (serve (tw_run cfg (fun _ => reply) tok body) (wheap w)).2
  | AToolCall tok body reply =>
      with_heap w (serve (tw_tool_call cfg (fun _ _ => reply) tok body) (wheap w)).2
  | AToolResult tok body =>
      with_heap w (serve (tw_tool_result cfg tok body) (wheap w)).2
  | ATask i =>
      match tasks (wheap w) !! i with
      | Some t =>
          let '(r, h') := background_step t (wheap w) in
          (* an exception escaping the task ends it *)
          let pc := match r with inl pc => pc | inr _ => TFinished end in
          with_heap w (set_task_pc h' i t pc)
      | None => w
      end
  | ASubscribe tok run_id =>
      match auth_or_403 cfg tok (wheap w) with
      | (inl _, _) =>
          {| wheap := wheap w;
             subs := subs w ++ [{| s_run_id := run_id; s_pc := GInit |}];
             out := out w |}
      | (inr _, _) => w
      end
  | AResume s disc =>
      match subs w !! s with
      | Some sub =>
          let '(it, pc, h') := gen_resume sub disc (wheap w) in
          {| wheap := h';
             subs := <[s := {| s_run_id := s_run_id sub; s_pc := pc |}]> (subs w);
             out := out w ++ match it with
                             | Some x => [(s, sub_key sub, x)]
                             | None => []
                             end |}
      | None => w
      end
  end.

Definition run_world (cfg : config) (w : world) (tr : list action) : world :=
  fold_left (world_step cfg) tr w.

(** Observations. *)
Fixpoint log_for (l : list (key * json)) (k : key) : list json :=
  match l with
  | [] => []
  | (k', ev) :: l' => if decide (k' = k) then ev :: log_for l' k else log_for l' k
  end.

(** Every event enqueued for run [k], in enqueue order. *)
Definition enqueued (w : world) (k : key) : list json := log_for (elog (wheap w)) k.

(** Domain events among the sent items selected by [keep]. *)
Fixpoint sse_events (keep : nat -> key -> bool) (o : list (nat * key * item)) : list json :=
  match o with
  | [] => []
  | (s, k, SseEvent _ ev) :: o' =>
      if keep s k then ev :: sse_events keep o' else sse_events keep o'
  | (_, _, Heartbeat) :: o' => sse_events keep o'
  end.

Definition delivered_to (w : world) (s : nat) : list json :=
  sse_events (fun s' _ => Nat.eqb s' s) (out w).

Fixpoint items_to (o : list (nat * key * item)) (s : nat) : list item :=
  match o with
  | [] => []
  | (s', _, it) :: o' => if Nat.eqb s' s then it :: items_to o' s else items_to o' s
  end.

(** [for e in es: await enqueue(run_id, e)] *)
Definition enqueue_all (run_id : json) (es : list json) (h : heap) : heap :=
  fold_left (fun h e => (enqueue run_id e h).2) es h.

(** [body.get(k)] on a decoded dict. *)
Definition field (d : list (string * json)) (k : string) : json :=
  match dict_get d k with Some v => v | None => JNull end.

(** [body.get(k, default)] on a decoded dict. *)
Definition field_or (d : list (string * json)) (k : string) (dflt : json) : json :=
  match dict_get d k with Some v => v | None => dflt end.


Definition json_is_str (v : option json) (s : string) : bool :=
  match v with
  | Some (JStr s') => String.eqb s' s
  | _ => false
  end.



Definition good_token : option string := Some (TW_SHARED_TOKEN default_config).

Definition run_request (r g : string) : json := JObj [("runId", JStr r); ("goal", JStr g)].

(** A run on an actionable goal whose client reports the tool result as
    soon as [/tw/run] has returned, before the background task first runs. *)
Definition early_result_trace : list action :=
  [ARun good_token (run_request "r1" "create a room")
        (HttpResp 200%Z "{}" (Some (JObj [("response", JStr "Sure.")])));
   AToolResult good_token (JObj [("runId", JStr "r1"); ("tool", JStr "geometry.createRoom")]);
   ATask 0; ATask 0].




(** Domain events sent for run [k], to any of its subscribers. *)
Definition events_of_key (o : list (nat * key * item)) (k : key) : list json :=
  sse_events (fun _ k' => bool_decide (k' = k)) o.

(** A heap step that keeps, for every run, "what was drained so far followed
    by what is buffered" a subsequence of what was enqueued. *)
Definition grows (h h' : heap) : Prop :=
  ∀ k pre, pre ++ queues h k `sublist_of` log_for (elog h) k →
           pre ++ queues h' k `sublist_of` log_for (elog h') k.

Definition Grows {A} (c : M A) : Prop := ∀ h, grows h (c h).2.

(** A computation that leaves the heap alone. *)
Definition Pure {A} (c : M A) : Prop := ∀ h, (c h).2 = h.

(** Invariant of the process for delivery order. *)
Definition world_inv (w : world) : Prop :=
  (∀ k, events_of_key (out w) k ++ queues (wheap w) k `sublist_of` log_for (elog (wheap w)) k)
  ∧ (∀ s k it, (s, k, it) ∈ out w → ∃ sub, subs w !! s = Some sub ∧ sub_key sub = k).

(** Invariant of the process for the first item of every subscription. *)
Definition heartbeat_first (w : world) : Prop :=
  ∀ s, match subs w !! s with
       | None => items_to (out w) s = []
       | Some sub =>
           (s_pc sub = GInit ∧ items_to (out w) s = [])
           ∨ (s_pc sub ≠ GInit ∧ hd_error (items_to (out w) s) = Some Heartbeat)
       end.


(** Is this event's [type] the string [error]? *)
Definition is_error_event (ev : json) : bool := json_is_str (Some (event_tag ev)) "error".

(** No event of type [error] was ever enqueued. *)
Definition no_error_events (h : heap) : Prop :=
  Forall (fun p => is_error_event p.2 = false) (elog h).

(** Every run queue respects the deque's [maxlen]. *)
Definition queues_bounded (h : heap) : Prop :=
  ∀ k, (length (queues h k) ≤ RUN_QUEUE_MAXLEN)%nat.

(** A heap property kept by every run of a computation. *)
Definition Preserves (P : heap -> Prop) {A} (c : M A) : Prop := ∀ h, P h → P (c h).2.

(** The [403] answer of [auth_or_403]. *)
Definition forbidden : response :=
  {| status := 403; rbody := BJson (JObj [("detail", JStr "Forbidden: bad token")]) |}.

Definition internal_error : response := {| status := 500; rbody := BRaw "Internal Server Error" |}.

(** Subscription [s] has left its loop after a disconnect. *)
Definition closed_at (w : world) (s : nat) : Prop :=
  ∃ sub, subs w !! s = Some sub ∧ s_pc sub = GClosed.

(* ------------------------------------------------------------------ *)
(** ** The tool adapters: [tools/door.py], [tools/wall.py], [tools/transform.py] *)

(** Python's [float(x)]. On a number ([int] or [float]: rounding to a
    double, [OverflowError] on a huge [int]) and on a string (Python's float
    grammar) it is an input of the model; the remaining cases are Python's:
    a [bool] converts to [0.0] or [1.0], [None], a [list] and a [dict]
    raise [TypeError]. *)
Record float_conv : Type := {
  num_float : Z -> Z -> json + exn;
  str_float : string -> json + exn
}.

Definition float_of (fc : float_conv) (v : json) : json + exn :=
  match v with
  | JNum m e => num_float fc m e
  | JStr s => str_float fc s
  | JBool b => inl (JNum (if b then 1 else 0) 0)
  | JNull => inr (PyError "TypeError" "float() argument must be a string or a real number, not 'NoneType'")
  | JArr _ => inr (PyError "TypeError" "float() argument must be a string or a real number, not 'list'")
  | JObj _ => inr (PyError "TypeError" "float() argument must be a string or a real number, not 'dict'")
  end.

Definition py_float (fc : float_conv) (v : json) : M json := fun h => (float_of fc v, h).

(** [await resp.text()]: httpx's [Response.text] is a property holding a
    [str], so the call raises [TypeError] before anything is awaited. *)
Definition resp_text_call (raw : string) : M string :=
  raise (PyError "TypeError" "'str' object is not callable").

(** The [try] block the three adapters share, from the POST to the return,
    with its [except Exception as e: raise HTTPException(status_code=500,
    detail=str(e))]. [reply] is the downstream's answer to the POST. *)
Definition tool_post (reply : http_reply) : M json :=
  try_except
    (match reply with
     | HttpRaise msg => raise (PyError "httpx.HTTPError" msg)
     | HttpResp st raw parsed =>
         if Z.leb 400 st then
           hint ← resp_text_call raw;
           mret (JObj [("ok", JBool false);
                       ("error", JObj [("code", JStr "E_HTTP"); ("title", JStr (pretty st));
                                       ("hint", JStr hint)])])
         else resp_json parsed
     end)
    (fun e => raise (HTTPException 500 (exn_str e))).

Definition place_bad_args : json :=
  JObj [("ok", JBool false);
        ("error", JObj [("code", JStr "E_BAD_ARGS"); ("title", JStr "wallId required");
                        ("hint", JStr "Provide wallId")])].

(** [tools/door.py: async def place(args)]; [downstream] answers the POST
    to [/api/tools/door.place] given its JSON payload. *)
Definition place (fc : float_conv) (downstream : json -> http_reply) (args : json) : M json :=
  w ← py_get_default args "width" (JNum 9 (-1));
  width ← py_float fc w;
  wallId ← py_get args "wallId";
  if negb (truthy wallId) then mret place_bad_args
  else tool_post (downstream (JObj [("width", width); ("wallId", wallId)])).

Definition cutOpening_bad_args : json :=
  JObj [("ok", JBool false);
        ("error", JObj [("code", JStr "E_BAD_ARGS"); ("title", JStr "wallId required")])].

(** [tools/wall.py: async def cutOpening(args)]; [downstream] answers the
    POST to [/api/tools/wall.cutOpening]. *)
Definition cutOpening (fc : float_conv) (downstream : json -> http_reply) (args : json) : M json :=
  wallId ← py_get args "wallId";
  w ← py_get_default args "width" (JNum 10 (-1));
  width ← py_float fc w;
  hg ← py_get_default args "height" (JNum 21 (-1));
  height ← py_float fc hg;
  if negb (truthy wallId) then mret cutOpening_bad_args
  else tool_post (downstream (JObj [("wallId", wallId); ("width", width); ("height", height)])).

(** [tools/transform.py: async def move(args)]; [downstream] answers the
    POST to [/api/tools/transform.move]. *)
Definition move (downstream : json -> http_reply) (args : json) : M json :=
  tool_post (downstream args).

(* ================================================================== *)
(** * Properties *)

Close Scope Z_scope.

(** ** The bounded deque *)

Lemma deque_append_drop (q : list json) (x : json) :
  length q ≤ 500 →
  deque_append RUN_QUEUE_MAXLEN q x = drop (length (q ++ [x]) - 500) (q ++ [x]).
Proof.
  intros Hq. unfold deque_append, RUN_QUEUE_MAXLEN.
  rewrite length_app. simpl.
  destruct (Nat.ltb_spec 500 (length q + 1)) as [Hlt|Hge].
  - replace (length q + 1 - 500) with 1 by lia.
    destruct (q ++ [x]); reflexivity.
  - replace (length q + 1 - 500) with 0 by lia. reflexivity.
Qed.

Lemma fold_deque_append (q es : list json) :
  length q ≤ 500 →
  fold_left (deque_append RUN_QUEUE_MAXLEN) es q = drop (length (q ++ es) - 500) (q ++ es).
Proof.
  revert q. induction es as [|e es IH]; intros q Hq; simpl.
  - rewrite app_nil_r. replace (length q - 500) with 0 by lia. reflexivity.
  - rewrite deque_append_drop by done.
    assert (Hd : length (q ++ [e]) - 500 ≤ length (q ++ [e])) by lia.
    rewrite IH by (rewrite length_drop, length_app; simpl; lia).
    rewrite <- drop_app_le by exact Hd.
    rewrite drop_drop, <- app_assoc. simpl. f_equal.
    rewrite length_app, length_drop, !length_app. simpl. lia.
Qed.

Lemma enqueue_all_queue (r : string) (es : list json) (h : heap) :
  queues (enqueue_all (JStr r) es h) (KStr r)
  = fold_left (deque_append RUN_QUEUE_MAXLEN) es (queues h (KStr r)).
Proof.
  unfold enqueue_all. revert h. induction es as [|e es IH]; intros h; simpl.
  - reflexivity.
  - rewrite IH. simpl. rewrite decide_True by done. reflexivity.
Qed.

(** C3: a run's queue keeps the 500 most recent events; an append to a
    full queue drops exactly its oldest entry and keeps the new one. *)
Theorem run_queue_keeps_latest_500 (r : string) (es : list json) (h : heap) :
  length (queues h (KStr r)) ≤ 500 → 500 < length es →
  queues (enqueue_all (JStr r) es h) (KStr r) = drop (length es - 500) es
  ∧ (∀ h' e, length (queues h' (KStr r)) = 500 →
       queues (enqueue (JStr r) e h').2 (KStr r) = tail (queues h' (KStr r)) ++ [e]).
Proof.
  intros Hq Hes. split.
  - rewrite enqueue_all_queue, fold_deque_append by done.
    rewrite drop_app_ge by (rewrite length_app; lia).
    f_equal. rewrite length_app. lia.
  - intros h' e Hfull. simpl. rewrite decide_True by done.
    unfold deque_append, RUN_QUEUE_MAXLEN. rewrite length_app, Hfull. simpl.
    destruct (queues h' (KStr r)) as [|x q] eqn:Hq'; simpl in *; [lia|reflexivity].
Qed.

(** ** [/tw/run] and [/tw/tool-result] on a single request *)

Lemma auth_ok (cfg : config) (h : heap) :
  auth_or_403 cfg (Some (TW_SHARED_TOKEN cfg)) h = (inl (), h).
Proof. unfold auth_or_403. rewrite decide_True by done. reflexivity. Qed.

(** C7: a start-run request whose [runId] or [goal] is missing or empty
    (any falsy value) is answered 400 and leaves the process state, in
    particular every run's queue, unchanged. *)
Theorem tw_run_rejects_missing_fields (cfg : config) (backend : json -> http_reply)
    (d : list (string * json)) (h : heap) :
  truthy (field d "runId") = false ∨ truthy (field d "goal") = false →
  serve (tw_run cfg backend (Some (TW_SHARED_TOKEN cfg)) (JObj d)) h
  = ({| status := 400%Z; rbody := BJson (JObj [("detail", JStr "runId and goal required")]) |}, h).
Proof.
  intros Hbad. unfold serve, tw_run. cbv [mbind M_bind]. rewrite auth_ok.
  cbn [py_get py_get_default mret M_ret].
  fold (field d "runId") (field d "goal").
  destruct Hbad as [Hb|Hb]; rewrite Hb; [reflexivity|].
  rewrite orb_true_r. reflexivity.
Qed.

Lemma py_get_default_agree (d1 d2 : list (string * json)) (k : string) (dflt : json) :
  (∀ k', k' ≠ "maxSteps" → dict_get d1 k' = dict_get d2 k') → k ≠ "maxSteps" →
  py_get_default (JObj d1) k dflt = py_get_default (JObj d2) k dflt.
Proof. intros Hd Hk. simpl. rewrite (Hd k Hk). reflexivity. Qed.

(** C9: two start-run requests that differ only in [maxSteps] get the same
    response and leave the same process state (events, queues, spawned
    task). *)
Theorem tw_run_ignores_maxSteps (cfg : config) (backend : json -> http_reply)
    (tok : option string) (d1 d2 : list (string * json)) (h : heap) :
  (∀ k, k ≠ "maxSteps" → dict_get d1 k = dict_get d2 k) →
  tw_run cfg backend tok (JObj d1) h = tw_run cfg backend tok (JObj d2) h.
Proof.
  intros Hd. unfold tw_run, py_get.
  rewrite !(py_get_default_agree d1 d2 "runId"), !(py_get_default_agree d1 d2 "goal"),
    !(py_get_default_agree d1 d2 "context"), !(py_get_default_agree d1 d2 "model")
    by (done || discriminate).
  reflexivity.
Qed.

(** C10: a tool-result report with a truthy, hashable [runId] and a truthy
    [tool] enqueues [act(status=result)] whose [result] is the supplied one
    when it is truthy and [{"ok": true}] for every falsy one. *)
Theorem tool_result_defaults_falsy_result (cfg : config) (d : list (string * json))
    (h : heap) (k : key) :
  key_of (field d "runId") = Some k →
  truthy (field d "runId") = true → truthy (field d "tool") = true →
  let ev := ev_act_result (field d "tool")
              (if truthy (field d "result") then field d "result" else ok_true) in
  let '(r, h') := serve (tw_tool_result cfg (Some (TW_SHARED_TOKEN cfg)) (JObj d)) h in
  r = {| status := 200%Z; rbody := BJson (JObj [("ok", JBool true)]) |}
  ∧ elog h' = elog h ++ [(k, ev)]
  ∧ queues h' k = deque_append RUN_QUEUE_MAXLEN (queues h k) ev.
Proof.
  intros Hk Hr Ht. unfold serve, tw_tool_result. cbv [mbind M_bind]. rewrite auth_ok.
  cbn [py_get py_get_default mret M_ret].
  fold (field d "runId") (field d "tool") (field d "result").
  rewrite Hr, Ht. simpl negb. cbn [orb].
  unfold enqueue. rewrite Hk. cbn.
  rewrite decide_True by done. unfold py_or. split_and!; reflexivity.
Qed.

(** C1 (defect): on a backend reply with a non-200 status the advisory step
    enqueues nothing, neither the reply nor the fallback; the fallback is
    enqueued only when the call raises. Actionable goal "create a room". *)
Theorem advisory_non_200_enqueues_no_fallback :
  elog (serve (tw_run default_config (fun _ => HttpResp 500%Z "" None) good_token
                 (run_request "r1" "create a room")) empty_heap).2
  = [(KStr "r1", ev_plan "Plan for: create a room" chosen_tool)]
  ∧ elog (serve (tw_run default_config (fun _ => HttpRaise "timeout") good_token
                   (run_request "r1" "create a room")) empty_heap).2
    = [(KStr "r1", ev_assistant (JStr fallback_reply));
       (KStr "r1", ev_plan "Plan for: create a room" chosen_tool)].
Proof. split; vm_compute; reflexivity. Qed.

(** C2 (same defect): for the non-actionable goal "hello there" a backend
    reply with status 500 leaves only [done] in the run's events; a 200
    reply gives [assistant], [done]. No task is spawned either way. *)
Theorem non_actionable_run_after_backend_500 :
  let h500 := (serve (tw_run default_config (fun _ => HttpResp 500%Z "" None) good_token
                        (run_request "r1" "hello there")) empty_heap).2 in
  let h200 := (serve (tw_run default_config
                        (fun _ => HttpResp 200%Z "{}" (Some (JObj [("response", JStr "Hi!")])))
                        good_token (run_request "r1" "hello there")) empty_heap).2 in
  elog h500 = [(KStr "r1", ev_done)] ∧ tasks h500 = []
  ∧ elog h200 = [(KStr "r1", ev_assistant (JStr "Hi!")); (KStr "r1", ev_done)] ∧ tasks h200 = [].
Proof. vm_compute. split_and!; reflexivity. Qed.

(** C8 (defect): whatever the downstream executor answers, [/tw/tool-call]
    hands the raw [bytes] body to [JSONResponse], whose rendering raises
    [TypeError]; the caller always gets a 500 Internal Server Error. *)
Theorem tool_call_answers_500 (cfg : config) (d : list (string * json))
    (st : Z) (raw : string) (parsed : option json) (h : heap) :
  truthy (field d "name") = true →
  serve (tw_tool_call cfg (fun _ _ => HttpResp st raw parsed) (Some (TW_SHARED_TOKEN cfg)) (JObj d)) h
  = ({| status := 500%Z; rbody := BRaw "Internal Server Error" |}, h).
Proof.
  intros Hn. unfold serve, tw_tool_call. cbv [mbind M_bind]. rewrite auth_ok.
  cbn [py_get py_get_default mret M_ret].
  fold (field d "name"). rewrite Hn. reflexivity.
Qed.

(** ** Event order of an actionable run *)





(** ** Every heap step preserves the drained-then-buffered order *)

Lemma log_for_app (l l' : list (key * json)) (k : key) :
  log_for (l ++ l') k = log_for l k ++ log_for l' k.
Proof.
  induction l as [|[k' ev] l IH]; simpl; [done|].
  case_decide; rewrite IH; done.
Qed.

Lemma tail_sublist (l : list json) : tail l `sublist_of` l.
Proof. destruct l; simpl; [constructor|]. apply sublist_cons. reflexivity. Qed.

Lemma deque_append_sublist (pre q L : list json) (n : nat) (x : json) :
  pre ++ q `sublist_of` L → pre ++ deque_append n q x `sublist_of` L ++ [x].
Proof.
  intros H. assert (Hx : pre ++ q ++ [x] `sublist_of` L ++ [x]).
  { rewrite (assoc_L (++)). apply sublist_app; [done|reflexivity]. }
  unfold deque_append. destruct (Nat.ltb n (length (q ++ [x]))); [|done].
  etrans; [|exact Hx]. apply sublist_app; [reflexivity|]. apply tail_sublist.
Qed.

Lemma grows_refl (h : heap) : grows h h.
Proof. intros k pre H. exact H. Qed.

Lemma grows_trans (h1 h2 h3 : heap) : grows h1 h2 → grows h2 h3 → grows h1 h3.
Proof. intros H12 H23 k pre H. apply H23, H12, H. Qed.

Lemma Pure_Grows {A} (c : M A) : Pure c → Grows c.
Proof. intros Hp h. rewrite Hp. apply grows_refl. Qed.

Lemma Grows_ret {A} (a : A) : Grows (mret a).
Proof. apply Pure_Grows. intros h. reflexivity. Qed.

Lemma Grows_raise {A} (e : exn) : Grows (raise (A := A) e).
Proof. apply Pure_Grows. intros h. reflexivity. Qed.

Lemma Grows_bind {A B} (c : M A) (k : A → M B) :
  Grows c → (∀ a, Grows (k a)) → Grows (c ≫= k).
Proof.
  intros Hc Hk h. specialize (Hc h). cbv [mbind M_bind].
  destruct (c h) as [[a|e] h'] eqn:E; simpl in *; [|exact Hc].
  eapply grows_trans; [exact Hc|apply Hk].
Qed.

Lemma Grows_try {A} (c : M A) (handler : exn → M A) :
  Grows c → (∀ e, Grows (handler e)) → Grows (try_except c handler).
Proof.
  intros Hc Hh h. specialize (Hc h). unfold try_except.
  destruct (c h) as [[a|e] h'] eqn:E; simpl in *; [exact Hc|].
  eapply grows_trans; [exact Hc|apply Hh].
Qed.

Lemma Grows_enqueue (rid ev : json) : Grows (enqueue rid ev).
Proof.
  intros h k pre H. unfold enqueue.
  destruct (key_of rid) as [k0|]; simpl; [|exact H].
  rewrite log_for_app. simpl.
  destruct (decide (k = k0)) as [->|Hne].
  - rewrite decide_True by done. by apply deque_append_sublist.
  - rewrite decide_False by congruence.
    rewrite app_nil_r. exact H.
Qed.

Lemma Grows_create_task (t : task) : Grows (create_task t).
Proof. intros h k pre H. exact H. Qed.

Lemma Grows_py_get_default (o : json) (k : string) (dflt : json) :
  Grows (py_get_default o k dflt).
Proof. apply Pure_Grows. intros h. destruct o; reflexivity. Qed.

Lemma Grows_py_get (o : json) (k : string) : Grows (py_get o k).
Proof. apply Grows_py_get_default. Qed.

Lemma Grows_auth (cfg : config) (tok : option string) : Grows (auth_or_403 cfg tok).
Proof. apply Pure_Grows. intros h. unfold auth_or_403. case_decide; reflexivity. Qed.

Lemma Grows_resp_json (p : option json) : Grows (resp_json p).
Proof. apply Pure_Grows. intros h. destruct p; reflexivity. Qed.

Lemma Grows_str_method (c : json) : Grows (str_method c).
Proof. apply Pure_Grows. intros h. destruct c; reflexivity. Qed.

Lemma Grows_JSONResponse (c : pyval) (st : Z) : Grows (JSONResponse c st).
Proof. apply Pure_Grows. intros h. destruct c; reflexivity. Qed.

Lemma Grows_is_actionable (t : json) : Grows (is_actionable t).
Proof.
  apply Pure_Grows. intros h. unfold is_actionable.
  destruct (truthy t); [destruct t|]; reflexivity.
Qed.

Create HintDb grows.
#[local] Hint Resolve Grows_ret Grows_raise Grows_enqueue Grows_create_task
  Grows_py_get_default Grows_py_get Grows_auth Grows_resp_json Grows_str_method
  Grows_JSONResponse Grows_is_actionable : grows.

Ltac grows_tac :=
  repeat match goal with
  | |- Grows (mbind _ _) => apply Grows_bind; [|intros ?]
  | |- Grows (try_except _ _) => apply Grows_try; [|intros ?]
  | |- Grows (if ?b then _ else _) => destruct b
  | |- Grows (match ?x with _ => _ end) => destruct x
  | |- Grows _ => solve [eauto with grows]
  end.

Lemma Grows_advisory (backend : json → http_reply) (rid goal ctx : json) :
  Grows (advisory backend rid goal ctx).
Proof. unfold advisory. grows_tac. Qed.

#[local] Hint Resolve Grows_advisory : grows.

Lemma Grows_tw_run (cfg : config) (backend : json → http_reply) (tok : option string) (body : json) :
  Grows (tw_run cfg backend tok body).
Proof. unfold tw_run, json_ok. grows_tac. Qed.

Lemma Grows_tw_tool_call (cfg : config) (ds : json → json → http_reply)
    (tok : option string) (body : json) :
  Grows (tw_tool_call cfg ds tok body).
Proof. unfold tw_tool_call. grows_tac. Qed.

Lemma Grows_tw_tool_result (cfg : config) (tok : option string) (body : json) :
  Grows (tw_tool_result cfg tok body).
Proof. unfold tw_tool_result, json_ok. grows_tac. Qed.

Lemma Grows_background_step (t : task) : Grows (background_step t).
Proof. unfold background_step, background_on_error. grows_tac. Qed.

Lemma serve_heap (c : M response) (h : heap) : (serve c h).2 = (c h).2.
Proof. unfold serve. destruct (c h) as [[r|[st d|cls m]] h']; reflexivity. Qed.

(** ** Delivery order over any interleaving *)

Lemma sse_events_app (keep : nat → key → bool) (o o' : list (nat * key * item)) :
  sse_events keep (o ++ o') = sse_events keep o ++ sse_events keep o'.
Proof.
  induction o as [|[[s k] [|tag ev]] o IH]; simpl; [done|done|].
  destruct (keep s k); simpl; rewrite IH; done.
Qed.

Lemma items_to_app (o o' : list (nat * key * item)) (s : nat) :
  items_to (o ++ o') s = items_to o s ++ items_to o' s.
Proof.
  induction o as [|[[s' k] it] o IH]; simpl; [done|].
  destruct (Nat.eqb s' s); simpl; rewrite IH; done.
Qed.

Lemma sse_events_mono (keep1 keep2 : nat → key → bool) (o : list (nat * key * item)) :
  (∀ s k it, (s, k, it) ∈ o → keep1 s k = true → keep2 s k = true) →
  sse_events keep1 o `sublist_of` sse_events keep2 o.
Proof.
  induction o as [|[[s k] it] o IH]; intros Himp; simpl; [constructor|].
  assert (IH' : sse_events keep1 o `sublist_of` sse_events keep2 o).
  { apply IH. intros s' k' it' Hin. apply (Himp s' k' it'). by apply list_elem_of_further. }
  destruct it as [|tag ev]; [exact IH'|].
  destruct (keep1 s k) eqn:E1.
  - rewrite (Himp s k (SseEvent tag ev)) by (done || apply list_elem_of_here).
    by apply sublist_skip.
  - destruct (keep2 s k); [by apply sublist_cons|exact IH'].
Qed.

(** What one resumption of a subscriber does to the heap. *)
Lemma gen_resume_cases (sub : subscriber) (disc : bool) (h : heap) :
  let '(it, pc, h') := gen_resume sub disc h in
  (it = None ∧ h' = h)
  ∨ (it = Some Heartbeat ∧ h' = h)
  ∨ (∃ ev q', queues h (sub_key sub) = ev :: q'
              ∧ it = Some (SseEvent (event_tag ev) ev)
              ∧ h' = set_queue h (sub_key sub) q').
Proof.
  unfold gen_resume, drain_one, popleft.
  destruct (s_pc sub); try destruct disc;
    try destruct (queues h (sub_key sub)) as [|ev q'] eqn:Hq; eauto 10.
Qed.

Lemma with_heap_inv (w : world) (h' : heap) :
  world_inv w → grows (wheap w) h' → world_inv (with_heap w h').
Proof. intros [H1 H2] Hg. split; [intros k; apply Hg, H1|exact H2]. Qed.

Lemma world_step_inv (cfg : config) (w : world) (a : action) :
  world_inv w → world_inv (world_step cfg w a).
Proof.
  intros Hw. destruct a as [tok body reply|tok body reply|tok body|i|tok rid|s disc]; simpl.
  - apply with_heap_inv; [done|]. rewrite serve_heap. apply Grows_tw_run.
  - apply with_heap_inv; [done|]. rewrite serve_heap. apply Grows_tw_tool_call.
  - apply with_heap_inv; [done|]. rewrite serve_heap. apply Grows_tw_tool_result.
  - destruct (tasks (wheap w) !! i) as [t|]; [|done].
    pose proof (Grows_background_step t (wheap w)) as G.
    destruct (background_step t (wheap w)) as [r h'] eqn:E. simpl in G.
    apply with_heap_inv; [done|]. intros k pre H. exact (G k pre H).
  - destruct (auth_or_403 cfg tok (wheap w)) as [[u|e] h']; [|done].
    destruct Hw as [H1 H2]. split; [exact H1|]. simpl.
    intros s k it Hin. destruct (H2 s k it Hin) as (sub & Hs & Hk).
    exists sub. split; [by apply lookup_app_l_Some|done].
  - destruct (subs w !! s) as [sub|] eqn:Hs; [|done].
    pose proof (gen_resume_cases sub disc (wheap w)) as C.
    destruct (gen_resume sub disc (wheap w)) as [[it pc] h'] eqn:E.
    destruct Hw as [H1 H2]. split; simpl.
    + intros k. unfold events_of_key. rewrite sse_events_app.
      destruct C as [[-> ->]|[[-> ->]|(ev & q' & Hq & -> & ->)]]; simpl.
      * rewrite !app_nil_r. apply H1.
      * rewrite !app_nil_r. apply H1.
      * specialize (H1 k). unfold events_of_key in H1.
        destruct (decide (k = sub_key sub)) as [->|Hne].
        -- rewrite bool_decide_true by done.
           rewrite Hq in H1. rewrite <- (assoc_L (++)). exact H1.
        -- rewrite bool_decide_false by congruence.
           rewrite app_nil_r. exact H1.
    + intros s1 k1 it1 Hin. apply elem_of_app in Hin as [Hin|Hin].
      * destruct (H2 s1 k1 it1 Hin) as (sub1 & Hs1 & Hk1).
        destruct (decide (s1 = s)) as [->|Hne].
        -- exists {| s_run_id := s_run_id sub; s_pc := pc |}. split.
           ++ apply list_lookup_insert_eq. eapply lookup_lt_Some. exact Hs.
           ++ rewrite Hs in Hs1. injection Hs1 as <-. exact Hk1.
        -- exists sub1. split; [|done]. rewrite list_lookup_insert_ne by congruence. exact Hs1.
      * destruct it as [x|]; [|by apply elem_of_nil in Hin].
        apply list_elem_of_singleton in Hin. injection Hin as -> -> ->.
        exists {| s_run_id := s_run_id sub; s_pc := pc |}. split; [|reflexivity].
        apply list_lookup_insert_eq. eapply lookup_lt_Some. exact Hs.
Qed.

Lemma run_world_inv (cfg : config) (tr : list action) (w : world) :
  world_inv w → world_inv (run_world cfg w tr).
Proof.
  unfold run_world. revert w. induction tr as [|a tr IH]; intros w Hw; simpl; [done|].
  apply IH, world_step_inv, Hw.
Qed.

Lemma init_world_inv : world_inv init_world.
Proof.
  split.
  - intros k. simpl. constructor.
  - intros s k it Hin. by apply elem_of_nil in Hin.
Qed.

(** C4: in every interleaving of requests, background tasks and
    subscribers, the domain events a subscriber of run [k] receives are a
    subsequence of the events enqueued for [k], in enqueue order; this
    covers the events injected by [/tw/tool-result]. (Events can be missing:
    evicted from a full deque, or drained by another subscriber of [k].) *)
Theorem delivered_events_follow_enqueue_order (cfg : config) (tr : list action)
    (s : nat) (sub : subscriber) :
  subs (run_world cfg init_world tr) !! s = Some sub →
  delivered_to (run_world cfg init_world tr) s
  `sublist_of` enqueued (run_world cfg init_world tr) (sub_key sub).
Proof.
  intros Hs. pose proof (run_world_inv cfg tr init_world init_world_inv) as [H1 H2].
  set (w := run_world cfg init_world tr) in *.
  unfold delivered_to, enqueued.
  etrans; [|exact (H1 (sub_key sub))].
  apply sublist_inserts_r. unfold events_of_key.
  apply sse_events_mono. intros s' k it Hin Hkeep.
  apply Nat.eqb_eq in Hkeep. subst s'.
  destruct (H2 s k it Hin) as (sub' & Hs' & Hk). rewrite Hs in Hs'. injection Hs' as <-.
  apply bool_decide_true. by symmetry.
Qed.

(** ** The first item of every subscription *)

Lemma gen_resume_pc (sub : subscriber) (disc : bool) (h : heap) :
  (gen_resume sub disc h).1.2 ≠ GInit
  ∧ (s_pc sub = GInit → (gen_resume sub disc h).1.1 = Some Heartbeat).
Proof.
  unfold gen_resume, drain_one.
  destruct (s_pc sub); try destruct disc;
    try destruct (popleft (queues h (sub_key sub))) as [[ev q']|];
    simpl; split; try discriminate; intros; congruence.
Qed.

Lemma items_to_other (s s1 : nat) (k : key) (it : option item) :
  s ≠ s1 → items_to (match it with Some x => [(s, k, x)] | None => [] end) s1 = [].
Proof.
  intros Hne. destruct it as [x|]; simpl; [|done].
  rewrite (proj2 (Nat.eqb_neq s s1) Hne). done.
Qed.

Lemma world_step_heartbeat (cfg : config) (w : world) (a : action) :
  heartbeat_first w → heartbeat_first (world_step cfg w a).
Proof.
  intros Hw. destruct a as [tok body reply|tok body reply|tok body|i|tok rid|s disc]; simpl;
    try exact Hw.
  - destruct (tasks (wheap w) !! i) as [t|]; [|exact Hw].
    destruct (background_step t (wheap w)) as [r h']. exact Hw.
  - destruct (auth_or_403 cfg tok (wheap w)) as [[u|e] h']; [|exact Hw].
    intros s. simpl. specialize (Hw s).
    destruct (decide (s < length (subs w))) as [Hlt|Hge].
    + rewrite lookup_app_l by done. exact Hw.
    + rewrite lookup_app_r by lia. rewrite lookup_ge_None_2 in Hw by lia.
      destruct (decide (s = length (subs w))) as [->|Hne].
      * rewrite Nat.sub_diag. simpl. left. split; [done|exact Hw].
      * rewrite lookup_ge_None_2 by (simpl; lia). exact Hw.
  - destruct (subs w !! s) as [sub|] eqn:Hs; [|exact Hw].
    pose proof (gen_resume_pc sub disc (wheap w)) as [Hpc Hhb].
    destruct (gen_resume sub disc (wheap w)) as [[it pc] h'] eqn:E. simpl in Hpc, Hhb.
    intros s1. simpl. rewrite items_to_app.
    destruct (decide (s1 = s)) as [->|Hne].
    + rewrite list_lookup_insert_eq by (eapply lookup_lt_Some; exact Hs).
      right. split; [exact Hpc|].
      specialize (Hw s). rewrite Hs in Hw.
      destruct Hw as [[Hinit Hnil]|[Hnot Hhd]].
      * rewrite Hnil, (Hhb Hinit). simpl. rewrite Nat.eqb_refl. done.
      * destruct (items_to (out w) s) as [|x l]; [discriminate|]. exact Hhd.
    + rewrite list_lookup_insert_ne by congruence.
      rewrite items_to_other by congruence. rewrite app_nil_r. apply Hw.
Qed.

Lemma run_world_heartbeat (cfg : config) (tr : list action) (w : world) :
  heartbeat_first w → heartbeat_first (run_world cfg w tr).
Proof.
  unfold run_world. revert w. induction tr as [|a tr IH]; intros w Hw; simpl; [done|].
  apply IH, world_step_heartbeat, Hw.
Qed.

(** C5: in every interleaving, whatever the run and whether or not anything
    was ever enqueued for it, the first item sent to a subscription is the
    [heartbeat]. *)
Theorem subscription_starts_with_heartbeat (cfg : config) (tr : list action) (s : nat) :
  hd_error (items_to (out (run_world cfg init_world tr)) s) = None
  ∨ hd_error (items_to (out (run_world cfg init_world tr)) s) = Some Heartbeat.
Proof.
  assert (Hinit : heartbeat_first init_world) by (intros s'; reflexivity).
  pose proof (run_world_heartbeat cfg tr init_world Hinit s) as Hw.
  destruct (subs (run_world cfg init_world tr) !! s) as [sub|].
  - destruct Hw as [[_ ->]|[_ ->]]; [left|right]; reflexivity.
  - rewrite Hw. left. reflexivity.
Qed.

(** A subscription to a run nothing was ever enqueued for: the heartbeat,
    then nothing but polling. *)
Example subscription_to_unwritten_run :
  items_to (out (run_world default_config init_world
                   [ASubscribe good_token "never"; AResume 0 false; AResume 0 false;
                    AResume 0 false]))
    0 = [Heartbeat].
Proof. vm_compute. reflexivity. Qed.

(** ** Heap properties kept by the handlers *)

Lemma Preserves_ret (P : heap → Prop) {A} (a : A) : Preserves P (mret a).
Proof. intros h Hp. exact Hp. Qed.

Lemma Preserves_raise (P : heap → Prop) {A} (e : exn) : Preserves P (raise (A := A) e).
Proof. intros h Hp. exact Hp. Qed.

Lemma Preserves_pure (P : heap → Prop) {A} (c : M A) : Pure c → Preserves P c.
Proof. intros Hc h Hp. rewrite Hc. exact Hp. Qed.

Lemma Preserves_bind (P : heap → Prop) {A B} (c : M A) (k : A → M B) :
  Preserves P c → (∀ a, Preserves P (k a)) → Preserves P (c ≫= k).
Proof.
  intros Hc Hk h Hp. specialize (Hc h Hp). cbv [mbind M_bind].
  destruct (c h) as [[a|e] h'] eqn:E; simpl in *; [apply Hk|]; exact Hc.
Qed.

Lemma Preserves_bind_ret (P : heap → Prop) {A B} (a : A) (k : A → M B) :
  Preserves P (k a) → Preserves P (mret a ≫= k).
Proof. intros Hk h Hp. exact (Hk h Hp). Qed.

Lemma Preserves_try (P : heap → Prop) {A} (c : M A) (handler : exn → M A) :
  Preserves P c → (∀ e, Preserves P (handler e)) → Preserves P (try_except c handler).
Proof.
  intros Hc Hh h Hp. specialize (Hc h Hp). unfold try_except.
  destruct (c h) as [[a|e] h'] eqn:E; simpl in *; [exact Hc|apply Hh, Hc].
Qed.

Lemma Pure_py_get_default (o : json) (k : string) (dflt : json) : Pure (py_get_default o k dflt).
Proof. intros h. destruct o; reflexivity. Qed.

Lemma Pure_py_get (o : json) (k : string) : Pure (py_get o k).
Proof. apply Pure_py_get_default. Qed.

Lemma Pure_auth (cfg : config) (tok : option string) : Pure (auth_or_403 cfg tok).
Proof. intros h. unfold auth_or_403. case_decide; reflexivity. Qed.

Lemma Pure_resp_json (p : option json) : Pure (resp_json p).
Proof. intros h. destruct p; reflexivity. Qed.

Lemma Pure_str_method (c : json) : Pure (str_method c).
Proof. intros h. destruct c; reflexivity. Qed.

Lemma Pure_JSONResponse (c : pyval) (st : Z) : Pure (JSONResponse c st).
Proof. intros h. destruct c; reflexivity. Qed.

Lemma Pure_is_actionable (t : json) : Pure (is_actionable t).
Proof. intros h. unfold is_actionable. destruct (truthy t); [destruct t|]; reflexivity. Qed.

Create HintDb pure.
#[local] Hint Resolve Pure_py_get_default Pure_py_get Pure_auth Pure_resp_json Pure_str_method
  Pure_JSONResponse Pure_is_actionable : pure.

(** Reduce [Preserves P c] to side conditions on the [enqueue] and
    [create_task] calls of [c], left to [tac]. *)
Ltac pres_tac tac :=
  repeat match goal with
  | |- Preserves _ (mbind _ (mret _)) => apply Preserves_bind_ret; cbv beta
  | |- Preserves _ (mbind _ _) => apply Preserves_bind; [|intros ?]
  | |- Preserves _ (try_except _ _) => apply Preserves_try; [|intros ?]
  | |- Preserves _ (if ?b then _ else _) => destruct b
  | |- Preserves _ (match ?x with _ => _ end) => destruct x
  | |- Preserves _ (mret _) => apply Preserves_ret
  | |- Preserves _ (raise _) => apply Preserves_raise
  | |- Preserves _ _ => solve [apply Preserves_pure; eauto with pure | tac]
  end.

Lemma Preserves_advisory (P : heap → Prop) (backend : json → http_reply) (rid goal ctx : json) :
  (∀ ev, Preserves P (enqueue rid ev)) → Preserves P (advisory backend rid goal ctx).
Proof. intros He. unfold advisory. pres_tac ltac:(apply He). Qed.

Lemma Preserves_tw_run (P : heap → Prop) (cfg : config) (backend : json → http_reply)
    (tok : option string) (d : list (string * json)) :
  (∀ ev, Preserves P (enqueue (field d "runId") ev)) →
  (∀ t, Preserves P (create_task t)) →
  Preserves P (tw_run cfg backend tok (JObj d)).
Proof.
  intros He Ht. unfold tw_run, json_ok. cbn [py_get py_get_default].
  fold (field d "runId") (field d "goal").
  pres_tac ltac:(first [apply He | apply Ht | apply Preserves_advisory, He]).
Qed.

Lemma Preserves_tw_run_any (P : heap → Prop) (cfg : config) (backend : json → http_reply)
    (tok : option string) (body : json) :
  (∀ rid ev, Preserves P (enqueue rid ev)) → (∀ t, Preserves P (create_task t)) →
  Preserves P (tw_run cfg backend tok body).
Proof.
  intros He Ht. unfold tw_run, json_ok.
  pres_tac ltac:(first [apply He | apply Ht | apply Preserves_advisory, He]).
Qed.

Lemma Preserves_tw_tool_result (P : heap → Prop) (cfg : config) (tok : option string)
    (d : list (string * json)) :
  (∀ ev, Preserves P (enqueue (field d "runId") ev)) →
  Preserves P (tw_tool_result cfg tok (JObj d)).
Proof.
  intros He. unfold tw_tool_result, json_ok. cbn [py_get py_get_default].
  fold (field d "runId"). pres_tac ltac:(apply He).
Qed.

Lemma Preserves_tw_tool_result_any (P : heap → Prop) (cfg : config) (tok : option string)
    (body : json) :
  (∀ rid ev, Preserves P (enqueue rid ev)) → Preserves P (tw_tool_result cfg tok body).
Proof. intros He. unfold tw_tool_result, json_ok. pres_tac ltac:(apply He). Qed.

Lemma Preserves_tw_tool_call (P : heap → Prop) (cfg : config) (ds : json → json → http_reply)
    (tok : option string) (body : json) :
  Preserves P (tw_tool_call cfg ds tok body).
Proof. unfold tw_tool_call. pres_tac fail. Qed.

Lemma Preserves_background_step (P : heap → Prop) (t : task) :
  (∀ ev, Preserves P (enqueue (t_run_id t) ev)) → Preserves P (background_step t).
Proof. intros He. unfold background_step, background_on_error. pres_tac ltac:(apply He). Qed.

(** A heap invariant of every handler, task step and drain step holds in
    every reachable world. *)
Section WorldInvariant.
Variable P : heap → Prop.
Hypothesis P_tw_run : ∀ cfg backend tok body, Preserves P (tw_run cfg backend tok body).
Hypothesis P_tw_tool_result : ∀ cfg tok body, Preserves P (tw_tool_result cfg tok body).
Hypothesis P_background_step : ∀ t, Preserves P (background_step t).
Hypothesis P_set_task_pc : ∀ h i t pc, P h → P (set_task_pc h i t pc).
Hypothesis P_set_queue : ∀ h k ev q', P h → queues h k = ev :: q' → P (set_queue h k q').

Lemma world_step_preserves (cfg : config) (w : world) (a : action) :
  P (wheap w) → P (wheap (world_step cfg w a)).
Proof.
  intros Hw. destruct a as [tok body reply|tok body reply|tok body|i|tok rid|s disc]; simpl.
  - rewrite serve_heap. apply P_tw_run, Hw.
  - rewrite serve_heap. apply Preserves_tw_tool_call, Hw.
  - rewrite serve_heap. apply P_tw_tool_result, Hw.
  - destruct (tasks (wheap w) !! i) as [t|]; [|exact Hw].
    pose proof (P_background_step t (wheap w) Hw) as G.
    destruct (background_step t (wheap w)) as [r h']. apply P_set_task_pc, G.
  - destruct (auth_or_403 cfg tok (wheap w)) as [[u|e] h']; exact Hw.
  - destruct (subs w !! s) as [sub|]; [|exact Hw].
    pose proof (gen_resume_cases sub disc (wheap w)) as C.
    destruct (gen_resume sub disc (wheap w)) as [[it pc] h'].
    destruct C as [[_ ->]|[[_ ->]|(ev & q' & Hq & _ & ->)]]; [exact Hw|exact Hw|].
    exact (P_set_queue _ _ _ _ Hw Hq).
Qed.

Lemma run_world_preserves (cfg : config) (tr : list action) (w : world) :
  P (wheap w) → P (wheap (run_world cfg w tr)).
Proof.
  unfold run_world. revert w. induction tr as [|a tr IH]; intros w Hw; simpl; [done|].
  apply IH, world_step_preserves, Hw.
Qed.
End WorldInvariant.

(** ** The enqueue log only grows; a pending task stays pending *)













(** ** Run queues stay within [maxlen] *)

Lemma deque_append_bounded (q : list json) (x : json) :
  length q ≤ RUN_QUEUE_MAXLEN → length (deque_append RUN_QUEUE_MAXLEN q x) ≤ RUN_QUEUE_MAXLEN.
Proof.
  intros Hq. unfold deque_append.
  destruct (Nat.ltb_spec RUN_QUEUE_MAXLEN (length (q ++ [x]))) as [Hlt|Hge]; [|exact Hge].
  unfold RUN_QUEUE_MAXLEN in *. rewrite length_app in *. simpl in *.
  destruct q as [|y q']; simpl in *; [lia|]. rewrite length_app. simpl. lia.
Qed.

Lemma Preserves_enqueue_bounded (rid ev : json) : Preserves queues_bounded (enqueue rid ev).
Proof.
  intros h Hb k. unfold enqueue. destruct (key_of rid) as [k0|]; simpl; [|apply Hb].
  case_decide; [subst; apply deque_append_bounded|]; apply Hb.
Qed.

Lemma Preserves_create_task_bounded (t : task) : Preserves queues_bounded (create_task t).
Proof. intros h Hb. exact Hb. Qed.

Lemma bounded_world (cfg : config) (tr : list action) :
  queues_bounded (wheap (run_world cfg init_world tr)).
Proof.
  apply run_world_preserves.
  - intros. apply Preserves_tw_run_any; [apply Preserves_enqueue_bounded|apply Preserves_create_task_bounded].
  - intros. apply Preserves_tw_tool_result_any, Preserves_enqueue_bounded.
  - intros. apply Preserves_background_step. intros. apply Preserves_enqueue_bounded.
  - intros h i t pc Hb. exact Hb.
  - intros h k ev q' Hb Hq k'. simpl. case_decide; [|apply Hb].
    subst. specialize (Hb k). rewrite Hq in Hb. simpl in Hb. lia.
  - intros k. simpl. unfold RUN_QUEUE_MAXLEN. lia.
Qed.

(** ** No [error] event is ever enqueued *)

Lemma Preserves_enqueue_noerr (rid ev : json) :
  is_error_event ev = false → Preserves no_error_events (enqueue rid ev).
Proof.
  intros He h Hn. unfold enqueue. destruct (key_of rid) as [k|]; simpl; [|exact Hn].
  unfold no_error_events in *. simpl. apply Forall_app. split; [exact Hn|].
  constructor; [exact He|constructor].
Qed.

Lemma background_step_noerr (t : task) : Preserves no_error_events (background_step t).
Proof.
  intros h Hn. unfold background_step.
  destruct (key_of (t_run_id t)) as [k|] eqn:Hk; destruct (t_pc t);
    cbv [try_except mbind M_bind mret M_ret background_on_error enqueue]; rewrite ?Hk; simpl;
    try exact Hn; unfold no_error_events in *; simpl;
    repeat (apply Forall_app; split); try exact Hn; repeat constructor.
Qed.

Lemma advisory_noerr (backend : json → http_reply) (rid goal ctx : json) :
  Preserves no_error_events (advisory backend rid goal ctx).
Proof. unfold advisory. pres_tac ltac:(apply Preserves_enqueue_noerr; reflexivity). Qed.

Lemma noerr_world (cfg : config) (tr : list action) :
  no_error_events (wheap (run_world cfg init_world tr)).
Proof.
  apply run_world_preserves.
  - intros. unfold tw_run, json_ok.
    pres_tac ltac:(first [apply Preserves_enqueue_noerr; reflexivity | apply advisory_noerr
                         | intros h' Hn; exact Hn]).
  - intros. unfold tw_tool_result, json_ok.
    pres_tac ltac:(apply Preserves_enqueue_noerr; reflexivity).
  - apply background_step_noerr.
  - intros h i t pc Hn. exact Hn.
  - intros h k ev q' Hn _. exact Hn.
  - constructor.
Qed.

(** ** Requests refused before any effect *)

Lemma auth_bad (cfg : config) (tok : option string) (h : heap) :
  tok ≠ Some (TW_SHARED_TOKEN cfg) →
  auth_or_403 cfg tok h = (inr (HTTPException 403 "Forbidden: bad token"), h).
Proof. intros Hb. unfold auth_or_403. rewrite decide_False by done. reflexivity. Qed.

(** A request whose [X-TW-Token] header is absent or differs from
    [TW_SHARED_TOKEN] is answered 403 by [/tw/run], [/tw/tool-call] and
    [/tw/tool-result] whatever its body, with no effect on the process
    state; a subscription to [/tw/events] with such a token is not opened. *)
Theorem bad_token_refused (cfg : config) (backend : json → http_reply)
    (ds : json → json → http_reply) (tok : option string) (body : json) (rid : string)
    (h : heap) (w : world) :
  tok ≠ Some (TW_SHARED_TOKEN cfg) →
  serve (tw_run cfg backend tok body) h = (forbidden, h)
  ∧ serve (tw_tool_call cfg ds tok body) h = (forbidden, h)
  ∧ serve (tw_tool_result cfg tok body) h = (forbidden, h)
  ∧ world_step cfg w (ASubscribe tok rid) = w.
Proof.
  intros Hb. unfold serve, tw_run, tw_tool_call, tw_tool_result. cbv [mbind M_bind].
  rewrite !auth_bad by done. split_and!; try reflexivity.
  cbn [world_step]. rewrite auth_bad by done. reflexivity.
Qed.

(** A tool-result report whose [runId] or [tool] is missing or falsy is
    answered 400 and leaves the process state unchanged. *)
Theorem tool_result_rejects_missing_fields (cfg : config) (d : list (string * json)) (h : heap) :
  truthy (field d "runId") = false ∨ truthy (field d "tool") = false →
  serve (tw_tool_result cfg (Some (TW_SHARED_TOKEN cfg)) (JObj d)) h
  = ({| status := 400%Z; rbody := BJson (JObj [("detail", JStr "runId and tool required")]) |}, h).
Proof.
  intros Hbad. unfold serve, tw_tool_result. cbv [mbind M_bind]. rewrite auth_ok.
  cbn [py_get py_get_default mret M_ret].
  fold (field d "runId") (field d "tool").
  destruct Hbad as [Hb|Hb]; rewrite Hb; [reflexivity|].
  rewrite orb_true_r. reflexivity.
Qed.

(** A tool call whose [name] is missing or falsy is answered 400 without
    contacting the executor and leaves the process state unchanged. *)
Theorem tool_call_rejects_missing_name (cfg : config) (ds : json → json → http_reply)
    (d : list (string * json)) (h : heap) :
  truthy (field d "name") = false →
  serve (tw_tool_call cfg ds (Some (TW_SHARED_TOKEN cfg)) (JObj d)) h
  = ({| status := 400%Z; rbody := BJson (JObj [("detail", JStr "name required")]) |}, h).
Proof.
  intros Hn. unfold serve, tw_tool_call. cbv [mbind M_bind]. rewrite auth_ok.
  cbn [py_get py_get_default mret M_ret]. fold (field d "name"). rewrite Hn. reflexivity.
Qed.

(** Whatever the token, body and executor answer, [/tw/tool-call] leaves
    the process state unchanged and answers 403, 400 or 500, never a
    success. *)
Theorem tool_call_never_succeeds (cfg : config) (ds : json → json → http_reply)
    (tok : option string) (body : json) (h : heap) :
  (serve (tw_tool_call cfg ds tok body) h).2 = h
  ∧ (status (serve (tw_tool_call cfg ds tok body) h).1 = 403%Z
     ∨ status (serve (tw_tool_call cfg ds tok body) h).1 = 400%Z
     ∨ status (serve (tw_tool_call cfg ds tok body) h).1 = 500%Z).
Proof.
  split.
  - rewrite serve_heap. exact (Preserves_tw_tool_call (fun h' => h' = h) cfg ds tok body h eq_refl).
  - unfold serve, tw_tool_call, auth_or_403. cbv [mbind M_bind].
    case_decide; [|left; reflexivity].
    cbv [mret M_ret raise py_get py_get_default JSONResponse].
    repeat case_match; simplify_eq; simpl; auto.
Qed.

(** A correctly authenticated request whose JSON body is not an object
    (array, string, number, boolean, null) makes [body.get] raise: the
    three POST endpoints answer 500 and change nothing. *)
Theorem non_object_body_answers_500 (cfg : config) (backend : json → http_reply)
    (ds : json → json → http_reply) (body : json) (h : heap) :
  (∀ d, body ≠ JObj d) →
  serve (tw_run cfg backend (Some (TW_SHARED_TOKEN cfg)) body) h = (internal_error, h)
  ∧ serve (tw_tool_call cfg ds (Some (TW_SHARED_TOKEN cfg)) body) h = (internal_error, h)
  ∧ serve (tw_tool_result cfg (Some (TW_SHARED_TOKEN cfg)) body) h = (internal_error, h).
Proof.
  intros Hb. destruct body as [| | | | |d]; [| | | | |by destruct (Hb d)];
    unfold serve, tw_run, tw_tool_call, tw_tool_result; cbv [mbind M_bind]; rewrite !auth_ok;
    split_and!; reflexivity.
Qed.

(** ** [runId] and [goal] of the wrong type *)

Lemma enqueue_unhashable (rid ev : json) (h : heap) :
  key_of rid = None → enqueue rid ev h = (inr (PyError "TypeError" "unhashable type"), h).
Proof. intros Hk. unfold enqueue. rewrite Hk. reflexivity. Qed.

Lemma advisory_effect (backend : json → http_reply) (rid goal ctx : json) (h : heap) :
  (advisory backend rid goal ctx h = (inl (), h))
  ∨ (∃ c, advisory backend rid goal ctx h = (inl (), (enqueue rid (ev_assistant c) h).2)
          ∧ key_of rid ≠ None)
  ∨ (advisory backend rid goal ctx h = (inr (PyError "TypeError" "unhashable type"), h)
     ∧ key_of rid = None).
Proof.
  unfold advisory, try_except. unfold enqueue.
  destruct (key_of rid) as [k|] eqn:Hk;
  destruct (backend (advisory_payload goal ctx)) as [st raw parsed|msg];
  try destruct (Z.eqb st 200);
  cbv [mbind M_bind mret M_ret raise resp_json py_get py_get_default str_method];
  repeat case_match; simplify_eq; eauto 10 using eq_refl.
Qed.

(** A truthy [runId] that is not hashable (a JSON array or object) makes
    every [enqueue] raise [TypeError], also the fallback one in the advisory
    [except]: [/tw/run] (with a truthy [goal]) and [/tw/tool-result] (with a
    truthy [tool]) answer 500 and change nothing. *)
Theorem unhashable_run_id_answers_500 (cfg : config) (backend : json → http_reply)
    (d : list (string * json)) (h : heap) :
  key_of (field d "runId") = None → truthy (field d "runId") = true →
  (truthy (field d "goal") = true →
   serve (tw_run cfg backend (Some (TW_SHARED_TOKEN cfg)) (JObj d)) h = (internal_error, h))
  ∧ (truthy (field d "tool") = true →
     serve (tw_tool_result cfg (Some (TW_SHARED_TOKEN cfg)) (JObj d)) h = (internal_error, h)).
Proof.
  intros Hk Hr. split; intros Hg.
  - unfold serve, tw_run. cbv [mbind M_bind]. rewrite auth_ok.
    cbn [py_get py_get_default mret M_ret].
    fold (field d "runId") (field d "goal") (field_or d "context" (JObj [])).
    rewrite Hr, Hg. cbn [negb orb].
    destruct (advisory_effect backend (field d "runId") (field d "goal")
                (field_or d "context" (JObj [])) h) as [E|[(c & E & Hne)|[E _]]];
      [|congruence|rewrite E; reflexivity].
    rewrite E. unfold is_actionable. rewrite Hg. cbn [negb].
    destruct (field d "goal"); cbv [mret M_ret raise]; try reflexivity.
    destruct (any_keyword (str_lower s)); cbn [negb]; cbv [mbind M_bind];
      rewrite enqueue_unhashable by exact Hk; reflexivity.
  - unfold serve, tw_tool_result. cbv [mbind M_bind]. rewrite auth_ok.
    cbn [py_get py_get_default mret M_ret].
    fold (field d "runId") (field d "tool") (field d "result").
    rewrite Hr, Hg. cbn [negb orb]. rewrite enqueue_unhashable by exact Hk. reflexivity.
Qed.

(** A truthy [goal] that is not a string makes [is_actionable] raise after
    the advisory step: [/tw/run] answers 500, and the only effect it leaves
    is at most one [assistant] event from that step (no [plan], no [done],
    no task). *)
Theorem non_string_goal_answers_500 (cfg : config) (backend : json → http_reply)
    (d : list (string * json)) (h : heap) :
  truthy (field d "runId") = true → truthy (field d "goal") = true →
  (∀ s, field d "goal" ≠ JStr s) →
  (serve (tw_run cfg backend (Some (TW_SHARED_TOKEN cfg)) (JObj d)) h).1 = internal_error
  ∧ ((serve (tw_run cfg backend (Some (TW_SHARED_TOKEN cfg)) (JObj d)) h).2 = h
     ∨ ∃ c, (serve (tw_run cfg backend (Some (TW_SHARED_TOKEN cfg)) (JObj d)) h).2
            = (enqueue (field d "runId") (ev_assistant c) h).2).
Proof.
  intros Hr Hg Hs. unfold serve, tw_run. cbv [mbind M_bind]. rewrite auth_ok.
  cbn [py_get py_get_default mret M_ret].
  fold (field d "runId") (field d "goal") (field_or d "context" (JObj [])).
  rewrite Hr, Hg. cbn [negb orb].
  assert (Ha : ∀ h', is_actionable (field d "goal") h'
                     = (inr (PyError "AttributeError" "object has no attribute 'lower'"), h')).
  { intros h'. unfold is_actionable. rewrite Hg. cbn [negb].
    destruct (field d "goal"); try reflexivity. by destruct (Hs s). }
  destruct (advisory_effect backend (field d "runId") (field d "goal")
              (field_or d "context" (JObj [])) h) as [E|[(c & E & _)|[E _]]];
    rewrite E; rewrite ?Ha; simpl; eauto.
Qed.

(** ** Runs do not share queues *)

Lemma Preserves_enqueue_other (k : key) (q : list json) (rid ev : json) :
  key_of rid ≠ Some k → Preserves (fun h => queues h k = q) (enqueue rid ev).
Proof.
  intros Hk h Hq. unfold enqueue. destruct (key_of rid) as [k0|] eqn:E; simpl; [|exact Hq].
  rewrite decide_False by congruence. exact Hq.
Qed.

(** [/tw/run], [/tw/tool-result] and a background task step change no
    queue but the one of their own [runId]. *)
Theorem handlers_touch_only_own_queue (cfg : config) (backend : json → http_reply)
    (tok : option string) (d : list (string * json)) (t : task) (h : heap) (k : key) :
  key_of (field d "runId") ≠ Some k → key_of (t_run_id t) ≠ Some k →
  queues (serve (tw_run cfg backend tok (JObj d)) h).2 k = queues h k
  ∧ queues (serve (tw_tool_result cfg tok (JObj d)) h).2 k = queues h k
  ∧ queues (background_step t h).2 k = queues h k.
Proof.
  intros Hd Ht. rewrite !serve_heap. split_and!.
  - apply (Preserves_tw_run (fun h' => queues h' k = queues h k)); [| |reflexivity].
    + intros ev. apply Preserves_enqueue_other, Hd.
    + intros t' h' Hq. exact Hq.
  - apply (Preserves_tw_tool_result (fun h' => queues h' k = queues h k)); [|reflexivity].
    intros ev. apply Preserves_enqueue_other, Hd.
  - apply (Preserves_background_step (fun h' => queues h' k = queues h k)); [|reflexivity].
    intros ev. apply Preserves_enqueue_other, Ht.
Qed.

(** ** The tool adapters *)

(** The downstream handling shared by [door.place], [wall.cutOpening] and
    [transform.move]: a network error and every status >= 400 raise
    [HTTPException(500)] (the latter with "'str' object is not callable",
    so the [E_HTTP] result is never built); under 400 the parsed JSON body
    is returned, and a body that is not JSON raises [HTTPException(500)]. *)
Theorem tool_post_outcomes (h : heap) :
  (∀ msg, tool_post (HttpRaise msg) h = (inr (HTTPException 500 msg), h))
  ∧ (∀ st raw parsed, (400 ≤ st)%Z →
       tool_post (HttpResp st raw parsed) h
       = (inr (HTTPException 500 "'str' object is not callable"), h))
  ∧ (∀ st raw j, (st < 400)%Z → tool_post (HttpResp st raw (Some j)) h = (inl j, h))
  ∧ (∀ st raw, (st < 400)%Z →
       ∃ msg, tool_post (HttpResp st raw None) h = (inr (HTTPException 500 msg), h)).
Proof.
  split_and!.
  - intros msg. reflexivity.
  - intros st raw parsed Hst. unfold tool_post, try_except.
    rewrite (proj2 (Z.leb_le 400 st) Hst). reflexivity.
  - intros st raw j Hst. unfold tool_post, try_except.
    rewrite (proj2 (Z.leb_gt 400 st) Hst). reflexivity.
  - intros st raw Hst. unfold tool_post, try_except.
    rewrite (proj2 (Z.leb_gt 400 st) Hst). eexists. reflexivity.
Qed.

(** [door.place] converts [width] (default 0.9) first, its error escaping
    unwrapped even when [wallId] is missing; then a falsy [wallId] gives the
    [E_BAD_ARGS] result without a request; otherwise it posts
    [{"width": float(width), "wallId": wallId}]. *)
Theorem place_checks_width_then_wallId (fc : float_conv) (ds : json → http_reply)
    (d : list (string * json)) (h : heap) :
  (∀ e, float_of fc (field_or d "width" (JNum 9 (-1))) = inr e →
        place fc ds (JObj d) h = (inr e, h))
  ∧ (∀ x, float_of fc (field_or d "width" (JNum 9 (-1))) = inl x →
          truthy (field d "wallId") = false →
          place fc ds (JObj d) h = (inl place_bad_args, h))
  ∧ (∀ x, float_of fc (field_or d "width" (JNum 9 (-1))) = inl x →
          truthy (field d "wallId") = true →
          place fc ds (JObj d) h
          = tool_post (ds (JObj [("width", x); ("wallId", field d "wallId")])) h).
Proof.
  unfold place. cbv [mbind M_bind py_float]. cbn [py_get py_get_default mret M_ret].
  fold (field_or d "width" (JNum 9 (-1))) (field d "wallId").
  split_and!; intros ? Hx; rewrite Hx; [reflexivity| |]; intros Hw; rewrite Hw; reflexivity.
Qed.

(** [wall.cutOpening] converts [width] (default 1.0) then [height]
    (default 2.1), a conversion error escaping unwrapped even when [wallId]
    is missing; then a falsy [wallId] gives the [E_BAD_ARGS] result without
    a request; otherwise it posts [{"wallId", "width", "height"}]. *)
Theorem cutOpening_checks_sizes_then_wallId (fc : float_conv) (ds : json → http_reply)
    (d : list (string * json)) (h : heap) :
  (∀ e, float_of fc (field_or d "width" (JNum 10 (-1))) = inr e →
        cutOpening fc ds (JObj d) h = (inr e, h))
  ∧ (∀ x e, float_of fc (field_or d "width" (JNum 10 (-1))) = inl x →
            float_of fc (field_or d "height" (JNum 21 (-1))) = inr e →
            cutOpening fc ds (JObj d) h = (inr e, h))
  ∧ (∀ x y, float_of fc (field_or d "width" (JNum 10 (-1))) = inl x →
            float_of fc (field_or d "height" (JNum 21 (-1))) = inl y →
            truthy (field d "wallId") = false →
            cutOpening fc ds (JObj d) h = (inl cutOpening_bad_args, h))
  ∧ (∀ x y, float_of fc (field_or d "width" (JNum 10 (-1))) = inl x →
            float_of fc (field_or d "height" (JNum 21 (-1))) = inl y →
            truthy (field d "wallId") = true →
            cutOpening fc ds (JObj d) h
            = tool_post (ds (JObj [("wallId", field d "wallId"); ("width", x); ("height", y)])) h).
Proof.
  unfold cutOpening. cbv [mbind M_bind py_float]. cbn [py_get py_get_default mret M_ret].
  fold (field_or d "width" (JNum 10 (-1))) (field_or d "height" (JNum 21 (-1))) (field d "wallId").
  split_and!.
  - intros e Hx. rewrite Hx. reflexivity.
  - intros x e Hx Hy. rewrite Hx, Hy. reflexivity.
  - intros x y Hx Hy Hw. rewrite Hx, Hy, Hw. reflexivity.
  - intros x y Hx Hy Hw. rewrite Hx, Hy, Hw. reflexivity.
Qed.

(** ** The SSE stream of one subscriber *)

Lemma items_to_snoc (o : list (nat * key * item)) (s : nat) (k : key) (x : item) :
  items_to (o ++ [(s, k, x)]) s = items_to o s ++ [x].
Proof. rewrite items_to_app. simpl. rewrite Nat.eqb_refl. reflexivity. Qed.

Lemma drain_world (cfg : config) (q : list json) (w : world) (s : nat) (sub : subscriber) :
  subs w !! s = Some sub → s_pc sub ≠ GInit → s_pc sub ≠ GClosed →
  queues (wheap w) (sub_key sub) = q →
  let w' := run_world cfg w (repeat (AResume s false) (S (length q))) in
  items_to (out w') s = items_to (out w) s ++ map (fun ev => SseEvent (event_tag ev) ev) q
  ∧ queues (wheap w') (sub_key sub) = []
  ∧ subs w' !! s = Some {| s_run_id := s_run_id sub; s_pc := GSleeping |}.
Proof.
  revert w sub. induction q as [|ev q IH]; intros w sub Hs Hi Hc Hq; cbv zeta; unfold run_world; cbn [length repeat fold_left].
  - unfold world_step. rewrite Hs.
    assert (Hg : gen_resume sub false (wheap w) = (None, GSleeping, wheap w)).
    { unfold gen_resume, drain_one, popleft. rewrite Hq.
      destruct (s_pc sub) eqn:E; try reflexivity; congruence. }
    rewrite Hg. cbn [out wheap subs]. rewrite !app_nil_r. split_and!; [reflexivity|exact Hq|].
    apply list_lookup_insert_eq. eapply lookup_lt_Some. exact Hs.
  - set (sub1 := {| s_run_id := s_run_id sub; s_pc := GAfterEvent |}).
    assert (Hg : gen_resume sub false (wheap w)
                 = (Some (SseEvent (event_tag ev) ev), GAfterEvent, set_queue (wheap w) (sub_key sub) q)).
    { unfold gen_resume, drain_one, popleft. rewrite Hq.
      destruct (s_pc sub) eqn:E; try reflexivity; congruence. }
    set (w1 := world_step cfg w (AResume s false)).
    assert (Hw1 : w1 = {| wheap := set_queue (wheap w) (sub_key sub) q;
                         subs := <[s := sub1]> (subs w);
                         out := out w ++ [(s, sub_key sub, SseEvent (event_tag ev) ev)] |}).
    { unfold w1, world_step. rewrite Hs, Hg. reflexivity. }
    assert (Hs1 : subs w1 !! s = Some sub1).
    { rewrite Hw1. simpl. apply list_lookup_insert_eq. eapply lookup_lt_Some. exact Hs. }
    assert (Hq1 : queues (wheap w1) (sub_key sub1) = q).
    { rewrite Hw1. simpl. rewrite decide_True by done. reflexivity. }
    destruct (IH w1 sub1 Hs1 ltac:(discriminate) ltac:(discriminate) Hq1) as (H1 & H2 & H3).
    unfold run_world in *. cbn [repeat fold_left] in H1, H2, H3.
    split_and!.
    + rewrite H1. rewrite Hw1. simpl. rewrite items_to_snoc, <- app_assoc. reflexivity.
    + exact H2.
    + exact H3.
Qed.

(** A subscriber past its heartbeat and still connected, resumed once more
    than its run's queue is long, receives every buffered event in queue
    order, empties the queue and ends up sleeping. *)
Theorem subscriber_drains_queue_in_order (cfg : config) (w : world) (s : nat) (sub : subscriber) :
  subs w !! s = Some sub → s_pc sub ≠ GInit → s_pc sub ≠ GClosed →
  let q := queues (wheap w) (sub_key sub) in
  let w' := run_world cfg w (repeat (AResume s false) (S (length q))) in
  items_to (out w') s = items_to (out w) s ++ map (fun ev => SseEvent (event_tag ev) ev) q
  ∧ queues (wheap w') (sub_key sub) = []
  ∧ subs w' !! s = Some {| s_run_id := s_run_id sub; s_pc := GSleeping |}.
Proof. intros Hs Hi Hc. exact (drain_world cfg _ w s sub Hs Hi Hc eq_refl). Qed.

Lemma world_step_closed (cfg : config) (w : world) (a : action) (s : nat) :
  closed_at w s →
  closed_at (world_step cfg w a) s ∧ items_to (out (world_step cfg w a)) s = items_to (out w) s.
Proof.
  intros (sub & Hs & Hc).
  destruct a as [tok body reply|tok body reply|tok body|i|tok rid|s1 disc]; simpl;
    try (split; [exists sub; done|done]).
  - destruct (tasks (wheap w) !! i) as [t|]; [|split; [exists sub; done|done]].
    destruct (background_step t (wheap w)) as [r h']. split; [exists sub; done|done].
  - destruct (auth_or_403 cfg tok (wheap w)) as [[u|e] h']; [|split; [exists sub; done|done]].
    split; [|done]. exists sub. split; [|done]. simpl. by apply lookup_app_l_Some.
  - destruct (subs w !! s1) as [sub1|] eqn:Hs1; [|split; [exists sub; done|done]].
    destruct (decide (s1 = s)) as [->|Hne].
    + rewrite Hs in Hs1. injection Hs1 as <-.
      assert (Hg : gen_resume sub disc (wheap w) = (None, GClosed, wheap w)).
      { unfold gen_resume. rewrite Hc. reflexivity. }
      rewrite Hg. simpl. rewrite app_nil_r. split; [|done].
      exists {| s_run_id := s_run_id sub; s_pc := GClosed |}. split; [|reflexivity].
      apply list_lookup_insert_eq. eapply lookup_lt_Some. exact Hs.
    + destruct (gen_resume sub1 disc (wheap w)) as [[it pc] h']. split.
      * exists sub. cbn [subs]. rewrite list_lookup_insert_ne by congruence. done.
      * cbn [out]. rewrite items_to_app, items_to_other by congruence. apply app_nil_r.
Qed.

Lemma run_world_closed (cfg : config) (tr : list action) (w : world) (s : nat) :
  closed_at w s → items_to (out (run_world cfg w tr)) s = items_to (out w) s.
Proof.
  unfold run_world. revert w. induction tr as [|a tr IH]; intros w Hw; simpl; [done|].
  destruct (world_step_closed cfg w a s Hw) as [Hc Hi]. rewrite IH by exact Hc. exact Hi.
Qed.

(** A resumption that finds the client disconnected closes the stream
    without taking any event from the queue, and the subscriber receives
    nothing more whatever happens afterwards. *)
Theorem disconnect_ends_stream (cfg : config) (w : world) (s : nat) (sub : subscriber) :
  subs w !! s = Some sub → s_pc sub = GAfterHeartbeat ∨ s_pc sub = GSleeping →
  wheap (world_step cfg w (AResume s true)) = wheap w
  ∧ ∀ tr, items_to (out (run_world cfg (world_step cfg w (AResume s true)) tr)) s
          = items_to (out w) s.
Proof.
  intros Hs Hpc.
  assert (Hg : gen_resume sub true (wheap w) = (None, GClosed, wheap w)).
  { unfold gen_resume. destruct Hpc as [-> | ->]; reflexivity. }
  assert (Hw1 : world_step cfg w (AResume s true)
                = {| wheap := wheap w;
                     subs := <[s := {| s_run_id := s_run_id sub; s_pc := GClosed |}]> (subs w);
                     out := out w ++ [] |}).
  { unfold world_step. rewrite Hs, Hg. reflexivity. }
  rewrite Hw1. split; [reflexivity|]. intros tr.
  rewrite run_world_closed.
  - cbn [out]. rewrite app_nil_r. reflexivity.
  - exists {| s_run_id := s_run_id sub; s_pc := GClosed |}. split; [|reflexivity].
    simpl. apply list_lookup_insert_eq.
    eapply lookup_lt_Some. exact Hs.
Qed.

(** In every interleaving, every run queue holds at most 500 events. *)
Theorem run_queues_never_exceed_500 (cfg : config) (tr : list action) (k : key) :
  length (queues (wheap (run_world cfg init_world tr)) k) ≤ 500.
Proof. exact (bounded_world cfg tr k). Qed.

Lemma log_for_elem (l : list (key * json)) (k : key) (ev : json) :
  ev ∈ log_for l k → (k, ev) ∈ l.
Proof.
  induction l as [|[k' ev'] l IH]; simpl; intros Hin; [by apply elem_of_nil in Hin|].
  case_decide as E.
  - subst. apply elem_of_cons in Hin as [->|Hin]; [left|right; apply IH, Hin].
  - right. apply IH, Hin.
Qed.

(** In every interleaving, no event of type [error] is ever enqueued: the
    [except] branch of [background_loop] can only be reached when [enqueue]
    raises, and then its own [enqueue] raises too. *)
Theorem no_error_event_is_ever_enqueued (cfg : config) (tr : list action) (k : key) :
  Forall (λ ev, is_error_event ev = false) (enqueued (run_world cfg init_world tr) k).
Proof.
  apply Forall_forall. intros ev Hin. apply log_for_elem in Hin.
  pose proof (noerr_world cfg tr) as Hn. unfold no_error_events in Hn.
  rewrite Forall_forall in Hn. exact (Hn (k, ev) Hin).
Qed.

(* ================================================================== *)
(** * Witnesses: the hypotheses of the theorems hold on concrete inputs *)

Lemma run_queue_keeps_latest_500_witness :
  length (queues empty_heap (KStr "r1")) ≤ 500
  ∧ 500 < length (map (fun n => JNum (Z.of_nat n) 0) (seq 0 501))
  ∧ queues (enqueue_all (JStr "r1") (map (fun n => JNum (Z.of_nat n) 0) (seq 0 501)) empty_heap) (KStr "r1")
    = drop (length (map (fun n => JNum (Z.of_nat n) 0) (seq 0 501)) - 500)
           (map (fun n => JNum (Z.of_nat n) 0) (seq 0 501)).
Proof.
  assert (H1 : length (queues empty_heap (KStr "r1")) ≤ 500) by (simpl; lia).
  assert (H2 : 500 < length (map (fun n => JNum (Z.of_nat n) 0) (seq 0 501)))
    by (rewrite length_map, length_seq; lia).
  split; [exact H1|]. split; [exact H2|].
  exact (proj1 (run_queue_keeps_latest_500 "r1" _ empty_heap H1 H2)).
Defined.

Lemma delivered_events_follow_enqueue_order_witness :
  subs (run_world default_config init_world
          (early_result_trace ++ [ASubscribe good_token "r1"; AResume 0 false;
                                  AResume 0 false; AResume 0 false])) !! 0
  = Some {| s_run_id := "r1"; s_pc := GAfterEvent |}
  ∧ delivered_to (run_world default_config init_world
                    (early_result_trace ++ [ASubscribe good_token "r1"; AResume 0 false;
                                            AResume 0 false; AResume 0 false])) 0
    `sublist_of` enqueued (run_world default_config init_world
                    (early_result_trace ++ [ASubscribe good_token "r1"; AResume 0 false;
                                            AResume 0 false; AResume 0 false])) (KStr "r1").
Proof.
  assert (Hs : subs (run_world default_config init_world
          (early_result_trace ++ [ASubscribe good_token "r1"; AResume 0 false;
                                  AResume 0 false; AResume 0 false])) !! 0
          = Some {| s_run_id := "r1"; s_pc := GAfterEvent |}) by (vm_compute; reflexivity).
  split; [exact Hs|].
  exact (delivered_events_follow_enqueue_order default_config _ 0 _ Hs).
Defined.


Lemma tw_run_rejects_missing_fields_witness :
  (truthy (field [("goal", JStr "create a room")] "runId") = false
   ∨ truthy (field [("goal", JStr "create a room")] "goal") = false)
  ∧ serve (tw_run default_config (fun _ => HttpRaise "timeout") good_token
             (JObj [("goal", JStr "create a room")])) empty_heap
    = ({| status := 400%Z; rbody := BJson (JObj [("detail", JStr "runId and goal required")]) |},
       empty_heap).
Proof.
  assert (H : truthy (field [("goal", JStr "create a room")] "runId") = false
              ∨ truthy (field [("goal", JStr "create a room")] "goal") = false)
    by (left; reflexivity).
  split; [exact H|].
  exact (tw_run_rejects_missing_fields default_config _ _ empty_heap H).
Defined.

Lemma tool_call_answers_500_witness :
  truthy (field [("name", JStr "wall.cutOpening")] "name") = true
  ∧ serve (tw_tool_call default_config (fun _ _ => HttpResp 200%Z "{}" (Some (JObj [])))
             good_token (JObj [("name", JStr "wall.cutOpening")])) empty_heap
    = ({| status := 500%Z; rbody := BRaw "Internal Server Error" |}, empty_heap).
Proof.
  assert (H : truthy (field [("name", JStr "wall.cutOpening")] "name") = true) by reflexivity.
  split; [exact H|].
  exact (tool_call_answers_500 default_config _ 200%Z "{}" (Some (JObj [])) empty_heap H).
Defined.

Lemma tw_run_ignores_maxSteps_witness :
  (∀ k, k ≠ "maxSteps" →
     dict_get [("runId", JStr "r1"); ("goal", JStr "hello there"); ("maxSteps", JNum 3 0)] k
     = dict_get [("runId", JStr "r1"); ("goal", JStr "hello there")] k)
  ∧ tw_run default_config (fun _ => HttpRaise "timeout") good_token
      (JObj [("runId", JStr "r1"); ("goal", JStr "hello there"); ("maxSteps", JNum 3 0)]) empty_heap
    = tw_run default_config (fun _ => HttpRaise "timeout") good_token
        (JObj [("runId", JStr "r1"); ("goal", JStr "hello there")]) empty_heap.
Proof.
  assert (H : ∀ k, k ≠ "maxSteps" →
     dict_get [("runId", JStr "r1"); ("goal", JStr "hello there"); ("maxSteps", JNum 3 0)] k
     = dict_get [("runId", JStr "r1"); ("goal", JStr "hello there")] k).
  { intros k Hk. simpl. rewrite (proj2 (String.eqb_neq k "maxSteps") Hk). reflexivity. }
  split; [exact H|].
  exact (tw_run_ignores_maxSteps default_config _ good_token _ _ empty_heap H).
Defined.

Lemma tool_result_defaults_falsy_result_witness :
  key_of (field [("runId", JStr "r1"); ("tool", JStr "geometry.createRoom"); ("result", JNum 0 0)] "runId")
    = Some (KStr "r1")
  ∧ truthy (field [("runId", JStr "r1"); ("tool", JStr "geometry.createRoom"); ("result", JNum 0 0)] "runId") = true
  ∧ truthy (field [("runId", JStr "r1"); ("tool", JStr "geometry.createRoom"); ("result", JNum 0 0)] "tool") = true
  ∧ elog (serve (tw_tool_result default_config good_token
                   (JObj [("runId", JStr "r1"); ("tool", JStr "geometry.createRoom"); ("result", JNum 0 0)]))
                empty_heap).2
    = [(KStr "r1", ev_act_result (JStr "geometry.createRoom") ok_true)].
Proof.
  assert (H1 : key_of (field [("runId", JStr "r1"); ("tool", JStr "geometry.createRoom"); ("result", JNum 0 0)] "runId")
               = Some (KStr "r1")) by reflexivity.
  assert (H2 : truthy (field [("runId", JStr "r1"); ("tool", JStr "geometry.createRoom"); ("result", JNum 0 0)] "runId") = true)
    by reflexivity.
  assert (H3 : truthy (field [("runId", JStr "r1"); ("tool", JStr "geometry.createRoom"); ("result", JNum 0 0)] "tool") = true)
    by reflexivity.
  split_and!; try assumption.
  exact (proj1 (proj2 (tool_result_defaults_falsy_result default_config _ empty_heap (KStr "r1") H1 H2 H3))).
Defined.

Lemma bad_token_refused_witness :
  None ≠ Some (TW_SHARED_TOKEN default_config)
  ∧ serve (tw_run default_config (fun _ => HttpRaise "timeout") None
             (run_request "r1" "create a room")) empty_heap = (forbidden, empty_heap)
  ∧ world_step default_config init_world (ASubscribe None "r1") = init_world.
Proof.
  assert (H : None ≠ Some (TW_SHARED_TOKEN default_config)) by discriminate.
  pose proof (bad_token_refused default_config (fun _ => HttpRaise "timeout")
                (fun _ _ => HttpRaise "timeout") None (run_request "r1" "create a room")
                "r1" empty_heap init_world H) as T.
  split_and!; [exact H|exact (proj1 T)|exact (proj2 (proj2 (proj2 T)))].
Defined.

Lemma tool_result_rejects_missing_fields_witness :
  (truthy (field [("runId", JStr "r1")] "runId") = false
   ∨ truthy (field [("runId", JStr "r1")] "tool") = false)
  ∧ serve (tw_tool_result default_config good_token (JObj [("runId", JStr "r1")])) empty_heap
    = ({| status := 400%Z; rbody := BJson (JObj [("detail", JStr "runId and tool required")]) |},
       empty_heap).
Proof.
  assert (H : truthy (field [("runId", JStr "r1")] "runId") = false
              ∨ truthy (field [("runId", JStr "r1")] "tool") = false) by (right; reflexivity).
  split; [exact H|].
  exact (tool_result_rejects_missing_fields default_config _ empty_heap H).
Defined.

Lemma tool_call_rejects_missing_name_witness :
  truthy (field [("args", JObj [])] "name") = false
  ∧ serve (tw_tool_call default_config (fun _ _ => HttpRaise "timeout") good_token
             (JObj [("args", JObj [])])) empty_heap
    = ({| status := 400%Z; rbody := BJson (JObj [("detail", JStr "name required")]) |}, empty_heap).
Proof.
  assert (H : truthy (field [("args", JObj [])] "name") = false) by reflexivity.
  split; [exact H|].
  exact (tool_call_rejects_missing_name default_config _ _ empty_heap H).
Defined.

Lemma non_object_body_answers_500_witness :
  (∀ d, JArr [JStr "r1"] ≠ JObj d)
  ∧ serve (tw_run default_config (fun _ => HttpRaise "timeout") good_token (JArr [JStr "r1"]))
          empty_heap = (internal_error, empty_heap).
Proof.
  assert (H : ∀ d, JArr [JStr "r1"] ≠ JObj d) by (intros d; discriminate).
  split; [exact H|].
  exact (proj1 (non_object_body_answers_500 default_config (fun _ => HttpRaise "timeout")
                  (fun _ _ => HttpRaise "timeout") _ empty_heap H)).
Defined.

Lemma unhashable_run_id_answers_500_witness :
  key_of (field [("runId", JArr [JStr "r1"]); ("goal", JStr "create a room")] "runId") = None
  ∧ truthy (field [("runId", JArr [JStr "r1"]); ("goal", JStr "create a room")] "runId") = true
  ∧ truthy (field [("runId", JArr [JStr "r1"]); ("goal", JStr "create a room")] "goal") = true
  ∧ serve (tw_run default_config (fun _ => HttpResp 200%Z "{}" (Some (JObj [("response", JStr "Sure.")])))
             good_token (JObj [("runId", JArr [JStr "r1"]); ("goal", JStr "create a room")])) empty_heap
    = (internal_error, empty_heap).
Proof.
  assert (H1 : key_of (field [("runId", JArr [JStr "r1"]); ("goal", JStr "create a room")] "runId") = None)
    by reflexivity.
  assert (H2 : truthy (field [("runId", JArr [JStr "r1"]); ("goal", JStr "create a room")] "runId") = true)
    by reflexivity.
  assert (H3 : truthy (field [("runId", JArr [JStr "r1"]); ("goal", JStr "create a room")] "goal") = true)
    by reflexivity.
  split_and!; try assumption.
  exact (proj1 (unhashable_run_id_answers_500 default_config
                  (fun _ => HttpResp 200%Z "{}" (Some (JObj [("response", JStr "Sure.")])))
                  _ empty_heap H1 H2) H3).
Defined.

Lemma non_string_goal_answers_500_witness :
  truthy (field [("runId", JStr "r1"); ("goal", JNum 42 0)] "runId") = true
  ∧ truthy (field [("runId", JStr "r1"); ("goal", JNum 42 0)] "goal") = true
  ∧ (∀ s, field [("runId", JStr "r1"); ("goal", JNum 42 0)] "goal" ≠ JStr s)
  ∧ (serve (tw_run default_config (fun _ => HttpRaise "timeout") good_token
              (JObj [("runId", JStr "r1"); ("goal", JNum 42 0)])) empty_heap).1 = internal_error.
Proof.
  assert (H1 : truthy (field [("runId", JStr "r1"); ("goal", JNum 42 0)] "runId") = true) by reflexivity.
  assert (H2 : truthy (field [("runId", JStr "r1"); ("goal", JNum 42 0)] "goal") = true) by reflexivity.
  assert (H3 : ∀ s, field [("runId", JStr "r1"); ("goal", JNum 42 0)] "goal" ≠ JStr s)
    by (intros s; discriminate).
  split_and!; try assumption.
  exact (proj1 (non_string_goal_answers_500 default_config (fun _ => HttpRaise "timeout")
                  _ empty_heap H1 H2 H3)).
Defined.

Lemma handlers_touch_only_own_queue_witness :
  key_of (field [("runId", JStr "r1"); ("goal", JStr "create a room")] "runId") ≠ Some (KStr "r2")
  ∧ key_of (JStr "r1") ≠ Some (KStr "r2")
  ∧ queues (serve (tw_run default_config (fun _ => HttpRaise "timeout") good_token
                     (JObj [("runId", JStr "r1"); ("goal", JStr "create a room")])) empty_heap).2
           (KStr "r2") = [].
Proof.
  assert (H1 : key_of (field [("runId", JStr "r1"); ("goal", JStr "create a room")] "runId")
               ≠ Some (KStr "r2")) by (vm_compute; congruence).
  assert (H2 : key_of (JStr "r1") ≠ Some (KStr "r2")) by (vm_compute; congruence).
  split_and!; try assumption.
  exact (proj1 (handlers_touch_only_own_queue default_config (fun _ => HttpRaise "timeout")
                  good_token _ {| t_run_id := JStr "r1"; t_tool := chosen_tool; t_pc := TStart |}
                  empty_heap (KStr "r2") H1 H2)).
Defined.

Lemma tool_post_outcomes_witness :
  (400 <= 404)%Z
  ∧ tool_post (HttpResp 404 "not found" None) empty_heap
    = (inr (HTTPException 500 "'str' object is not callable"), empty_heap).
Proof.
  assert (H : (400 <= 404)%Z) by lia.
  split; [exact H|].
  exact (proj1 (proj2 (tool_post_outcomes empty_heap)) 404%Z "not found" None H).
Defined.

Lemma place_checks_width_then_wallId_witness :
  float_of {| num_float := fun m e => inl (JNum m e); str_float := fun _ => inl (JNum 0 0) |}
           (field_or [("width", JNum 1 0)] "width" (JNum 9 (-1))) = inl (JNum 1 0)
  ∧ truthy (field [("width", JNum 1 0)] "wallId") = false
  ∧ place {| num_float := fun m e => inl (JNum m e); str_float := fun _ => inl (JNum 0 0) |}
          (fun _ => HttpRaise "timeout") (JObj [("width", JNum 1 0)]) empty_heap
    = (inl place_bad_args, empty_heap).
Proof.
  assert (H1 : float_of {| num_float := fun m e => inl (JNum m e); str_float := fun _ => inl (JNum 0 0) |}
                 (field_or [("width", JNum 1 0)] "width" (JNum 9 (-1))) = inl (JNum 1 0)) by reflexivity.
  assert (H2 : truthy (field [("width", JNum 1 0)] "wallId") = false) by reflexivity.
  split_and!; try assumption.
  exact (proj1 (proj2 (place_checks_width_then_wallId _ (fun _ => HttpRaise "timeout") _ empty_heap))
           _ H1 H2).
Defined.

Lemma cutOpening_checks_sizes_then_wallId_witness :
  float_of {| num_float := fun m e => inl (JNum m e); str_float := fun _ => inl (JNum 0 0) |}
           (field_or [("wallId", JStr "w1"); ("height", JNull)] "width" (JNum 10 (-1)))
    = inl (JNum 10 (-1))
  ∧ float_of {| num_float := fun m e => inl (JNum m e); str_float := fun _ => inl (JNum 0 0) |}
             (field_or [("wallId", JStr "w1"); ("height", JNull)] "height" (JNum 21 (-1)))
    = inr (PyError "TypeError" "float() argument must be a string or a real number, not 'NoneType'")
  ∧ cutOpening {| num_float := fun m e => inl (JNum m e); str_float := fun _ => inl (JNum 0 0) |}
               (fun _ => HttpRaise "timeout") (JObj [("wallId", JStr "w1"); ("height", JNull)]) empty_heap
    = (inr (PyError "TypeError" "float() argument must be a string or a real number, not 'NoneType'"),
       empty_heap).
Proof.
  assert (H1 : float_of {| num_float := fun m e => inl (JNum m e); str_float := fun _ => inl (JNum 0 0) |}
                 (field_or [("wallId", JStr "w1"); ("height", JNull)] "width" (JNum 10 (-1)))
               = inl (JNum 10 (-1))) by reflexivity.
  assert (H2 : float_of {| num_float := fun m e => inl (JNum m e); str_float := fun _ => inl (JNum 0 0) |}
                 (field_or [("wallId", JStr "w1"); ("height", JNull)] "height" (JNum 21 (-1)))
               = inr (PyError "TypeError" "float() argument must be a string or a real number, not 'NoneType'"))
    by reflexivity.
  split_and!; try assumption.
  exact (proj1 (proj2 (cutOpening_checks_sizes_then_wallId _ (fun _ => HttpRaise "timeout") _ empty_heap))
           _ _ H1 H2).
Defined.

Lemma subscriber_drains_queue_in_order_witness :
  subs (run_world default_config init_world
          [ARun good_token (run_request "r1" "create a room") (HttpRaise "timeout");
           ASubscribe good_token "r1"; AResume 0 false]) !! 0
  = Some {| s_run_id := "r1"; s_pc := GAfterHeartbeat |}
  ∧ GAfterHeartbeat ≠ GInit ∧ GAfterHeartbeat ≠ GClosed
  ∧ queues (wheap (run_world default_config
                     (run_world default_config init_world
                        [ARun good_token (run_request "r1" "create a room") (HttpRaise "timeout");
                         ASubscribe good_token "r1"; AResume 0 false])
                     (repeat (AResume 0 false)
                        (S (length (queues (wheap (run_world default_config init_world
                           [ARun good_token (run_request "r1" "create a room") (HttpRaise "timeout");
                            ASubscribe good_token "r1"; AResume 0 false])) (KStr "r1")))))))
           (KStr "r1") = [].
Proof.
  assert (H1 : subs (run_world default_config init_world
          [ARun good_token (run_request "r1" "create a room") (HttpRaise "timeout");
           ASubscribe good_token "r1"; AResume 0 false]) !! 0
          = Some {| s_run_id := "r1"; s_pc := GAfterHeartbeat |}) by (vm_compute; reflexivity).
  assert (H2 : s_pc {| s_run_id := "r1"; s_pc := GAfterHeartbeat |} ≠ GInit) by discriminate.
  assert (H3 : s_pc {| s_run_id := "r1"; s_pc := GAfterHeartbeat |} ≠ GClosed) by discriminate.
  split_and!; try assumption.
  exact (proj1 (proj2 (subscriber_drains_queue_in_order default_config _ 0 _ H1 H2 H3))).
Defined.

Lemma disconnect_ends_stream_witness :
  subs (run_world default_config init_world
          [ARun good_token (run_request "r1" "create a room") (HttpRaise "timeout");
           ASubscribe good_token "r1"; AResume 0 false]) !! 0
  = Some {| s_run_id := "r1"; s_pc := GAfterHeartbeat |}
  ∧ (GAfterHeartbeat = GAfterHeartbeat ∨ GAfterHeartbeat = GSleeping)
  ∧ wheap (world_step default_config
             (run_world default_config init_world
                [ARun good_token (run_request "r1" "create a room") (HttpRaise "timeout");
                 ASubscribe good_token "r1"; AResume 0 false]) (AResume 0 true))
    = wheap (run_world default_config init_world
               [ARun good_token (run_request "r1" "create a room") (HttpRaise "timeout");
                ASubscribe good_token "r1"; AResume 0 false]).
Proof.
  assert (H1 : subs (run_world default_config init_world
          [ARun good_token (run_request "r1" "create a room") (HttpRaise "timeout");
           ASubscribe good_token "r1"; AResume 0 false]) !! 0
          = Some {| s_run_id := "r1"; s_pc := GAfterHeartbeat |}) by (vm_compute; reflexivity).
  assert (H2 : s_pc {| s_run_id := "r1"; s_pc := GAfterHeartbeat |} = GAfterHeartbeat
               ∨ s_pc {| s_run_id := "r1"; s_pc := GAfterHeartbeat |} = GSleeping) by (left; reflexivity).
  split_and!; try assumption.
  exact (proj1 (disconnect_ends_stream default_config _ 0 _ H1 H2)).
Defined.
